(** * Perioperative AKI tool: clinical decision logic

    A shallow embedding of [src/src/aki_tool.py] (and of its two partial
    copies [tool_1.py], [tool_2.py], whose shared functions are textually
    the same): the CPT/ICD10PCS procedure classifier, the CPT range
    expansion of the reference tables, the creatinine normaliser, the eGFR
    estimate, the post-operative peaks, the close-surgery detector and the
    AKI staging procedure.

    Conventions.
    - Python [float] values are read as real numbers ([R]): comparisons,
      [min]/[max], [/] and [pow] are the exact real operations.
    - Timestamps are integers ([Z]), counted in microseconds.
    - A Python [dict] is a [gmap], a [set] a [gset].
    - A function that can raise returns a [result]; [None] is [option]. *)

From Stdlib Require Import ZArith Reals Lra Lia String Ascii.
From stdpp Require Import gmap strings list sorting.

#[local] Open Scope Z_scope.

(** ** The Python operations the program relies on *)

Module Py.

Inductive exn : Set := KeyError | ValueError | IndexError.

Inductive result (A : Type) : Type :=
| Ok (a : A)
| Raise (e : exn).
Arguments Ok {A} a.
Arguments Raise {A} e.

Definition bind {A B : Type} (r : result A) (k : A → result B) : result B :=
  match r with
  | Ok a => k a
  | Raise e => Raise e
  end.

(** [d[k]] on a dict: [KeyError] when the key is absent. *)
Definition getitem `{Countable K} {V : Type} (d : gmap K V) (k : K) : result V :=
  match d !! k with
  | Some v => Ok v
  | None => Raise KeyError
  end.

(** [d.get(k, dflt)]. *)
Definition get `{Countable K} {V : Type} (d : gmap K V) (k : K) (dflt : V) : V :=
  match d !! k with
  | Some v => v
  | None => dflt
  end.

(** [df.iloc[0]]: the first row, [IndexError] on an empty frame. *)
Definition iloc0 {A : Type} (df : list A) : result A :=
  match df with
  | row :: _ => Ok row
  | [] => Raise IndexError
  end.

(** Values of mixed type, for the comparisons the source makes between an
    [int] and a [str]. *)
Inductive obj : Set :=
| Int (n : Z)
| Str (s : string).

(** [a != b]: objects of different types are never equal. *)
Definition ne (a b : obj) : bool :=
  match a, b with
  | Int x, Int y => negb (x =? y)
  | Str s, Str t => negb (String.eqb s t)
  | _, _ => true
  end.

(** *** Characters and strings (ASCII) *)

Definition is_digit (c : ascii) : bool :=
  let n := nat_of_ascii c in (48 <=? n)%nat && (n <=? 57)%nat.

Definition is_upper (c : ascii) : bool :=
  let n := nat_of_ascii c in (65 <=? n)%nat && (n <=? 90)%nat.

Definition is_space (c : ascii) : bool :=
  let n := nat_of_ascii c in
  ((9 <=? n)%nat && (n <=? 13)%nat) || (28 <=? n)%nat && (n <=? 32)%nat.

Definition chars (s : string) : list ascii := list_ascii_of_string s.

(** [s.isdigit()]: at least one character and all of them digits. *)
Definition isdigit (s : string) : bool :=
  match chars s with
  | [] => false
  | cs => forallb is_digit cs
  end.

Definition digit_value (c : ascii) : Z := Z.of_nat (nat_of_ascii c) - 48.

(** The number a run of decimal digits denotes. *)
Definition int_of_digits (cs : list ascii) : Z :=
  fold_left (λ acc c, 10 * acc + digit_value c) cs 0.

(** Digit groups separated by single underscores, as [int] accepts them:
    [digits_us false cs] reads [cs] when a digit must come next. *)
Fixpoint digits_us (after_digit : bool) (cs : list ascii) : option (list ascii) :=
  match cs with
  | [] => if after_digit then Some [] else None
  | c :: cs' =>
      if is_digit c then option_map (cons c) (digits_us true cs')
      else if Ascii.eqb c "_" && after_digit then digits_us false cs'
      else None
  end.

Fixpoint lstrip (cs : list ascii) : list ascii :=
  match cs with
  | c :: cs' => if is_space c then lstrip cs' else cs
  | [] => []
  end.

Definition strip (cs : list ascii) : list ascii :=
  rev (lstrip (rev (lstrip cs))).

(** [int(s)] on a string: surrounding white space, an optional sign and a
    decimal literal; [ValueError] otherwise. *)
Definition int (s : string) : result Z :=
  let cs := strip (chars s) in
  let '(sign, body) :=
    match cs with
    | "+"%char :: r => (1, r)
    | "-"%char :: r => (-1, r)
    | _ => (1, cs)
    end in
  match digits_us false body with
  | Some ds => Ok (sign * int_of_digits ds)
  | None => Raise ValueError
  end.

(** [len(s)], [s[a:b]] for [0 <= a], [0 <= b], [s[0]] and [s[-1]] taken as
    one-character strings. *)
Definition len (s : string) : nat := String.length s.

Definition slice (s : string) (a b : nat) : string := substring a (b - a) s.

Definition first (s : string) : string := substring 0 1 s.

Definition last (s : string) : string := substring (len s - 1) 1 s.

(** [s.split(sep)] for a one-character separator. *)
Fixpoint split_chars (sep : ascii) (cur : list ascii) (cs : list ascii) : list string :=
  match cs with
  | [] => [string_of_list_ascii (rev cur)]
  | c :: cs' =>
      if Ascii.eqb c sep then string_of_list_ascii (rev cur) :: split_chars sep [] cs'
      else split_chars sep (c :: cur) cs'
  end.

Definition split (sep : ascii) (s : string) : list string :=
  split_chars sep [] (chars s).

(** [re.search(r'^[A-Z]', s)]. *)
Definition search_leading_upper (s : string) : bool :=
  match chars s with
  | c :: _ => is_upper c
  | [] => false
  end.

(** [re.search(r'[A-Z]$', s)]: [$] matches at the end of the string and
    also just before a newline that ends it. *)
Definition search_trailing_upper (s : string) : bool :=
  match rev (chars s) with
  | c :: r =>
      is_upper c ||
      (Ascii.eqb c "010" && match r with c' :: _ => is_upper c' | [] => false end)
  | [] => false
  end.

(** Decimal digits of a natural number, most significant first. *)
Fixpoint digits_fuel (fuel : nat) (n : N) (acc : list ascii) : list ascii :=
  match fuel with
  | O => acc
  | S fuel' =>
      let acc' := ascii_of_N (48 + n mod 10) :: acc in
      if (n <? 10)%N then acc' else digits_fuel fuel' (n / 10)%N acc'
  end.

Definition digits_of (n : N) : list ascii :=
  digits_fuel (S (N.to_nat (N.log2 n))) n [].

(** [f'{n:0{width}d}']: the sign first, then zeros up to [width]
    characters in all, then the digits. *)
Definition format_0d (width : nat) (n : Z) : string :=
  let ds := digits_of (Z.abs_N n) in
  let sign := if n <? 0 then ["-"%char] else [] in
  let pad := repeat "0"%char (width - length sign - length ds) in
  string_of_list_ascii (sign ++ pad ++ ds).

(** [range(a, b)]. *)
Definition range (a b : Z) : list Z :=
  map (λ i, a + Z.of_nat i) (seq 0 (Z.to_nat (b - a))).

(** *** Reals standing for floats *)

Definition lt (x y : R) : bool := if Rlt_dec x y then true else false.
Definition le (x y : R) : bool := if Rle_dec x y then true else false.
Definition ge (x y : R) : bool := le y x.

(** [pow(x, y)] on floats. Every call of the program has [0 < x], where it
    is [exp (y * ln x)]. *)
Definition pow (x y : R) : R := Rpower x y.

(** [round(x)]: the nearest integer, a tie going to the even one. *)
Definition round (x : R) : Z :=
  let f := Zfloor x in
  let d := (x - IZR f)%R in
  if lt d (1 / 2) then f
  else if lt (1 / 2) d then f + 1
  else if Z.even f then f else f + 1.

End Py.

#[global] Instance result_bind : MBind Py.result := λ A B k r, Py.bind r k.

Abbreviation result := Py.result.
Abbreviation Ok := Py.Ok.
Abbreviation Raise := Py.Raise.
Abbreviation KeyError := Py.KeyError.
Abbreviation ValueError := Py.ValueError.
Abbreviation IndexError := Py.IndexError.

(** ** Procedure code classifier: CPT4 cardiac subclass *)

(** [is_open_cardiac_surgical_cpt]. The source compares the integer code
    with the string ['33025'] in its first range. *)
Definition is_open_cardiac_surgical_cpt (cpt_code : string) : bool :=
  if negb (Py.isdigit cpt_code) then false
  else
    let cpt_code := Py.int_of_digits (Py.chars cpt_code) in
    if (((33020 <=? cpt_code) && (cpt_code <=? 33100))
          && Py.ne (Py.Int cpt_code) (Py.Str "33025"))
       || ((33120 <=? cpt_code) && (cpt_code <=? 33130))
       || ((33140 <=? cpt_code) && (cpt_code <=? 33141))
       || ((33300 <=? cpt_code) && (cpt_code <=? 33315))
       || ((33321 <=? cpt_code) && (cpt_code <=? 33322))
       || (cpt_code =? 33335)
       || ((33390 <=? cpt_code) && (cpt_code <=? 33417))
       || ((33422 <=? cpt_code) && (cpt_code <=? 33471))
       || ((33474 <=? cpt_code) && (cpt_code <=? 33476))
       || (cpt_code =? 33478)
       || (cpt_code =? 33496)
       || ((33500 <=? cpt_code) && (cpt_code <=? 33507))
       || (cpt_code =? 33508)
       || ((33510 <=? cpt_code) && (cpt_code <=? 33516))
       || ((33517 <=? cpt_code) && (cpt_code <=? 33530))
       || ((33533 <=? cpt_code) && (cpt_code <=? 33548))
       || (cpt_code =? 33572)
       || ((33600 <=? cpt_code) && (cpt_code <=? 33622))
       || ((33641 <=? cpt_code) && (cpt_code <=? 33697))
       || ((33702 <=? cpt_code) && (cpt_code <=? 33722))
       || ((33724 <=? cpt_code) && (cpt_code <=? 33732))
       || ((33735 <=? cpt_code) && (cpt_code <=? 33768))
       || ((33770 <=? cpt_code) && (cpt_code <=? 33783))
       || ((33786 <=? cpt_code) && (cpt_code <=? 33788))
       || ((33800 <=? cpt_code) && (cpt_code <=? 33853))
       || ((33858 <=? cpt_code) && (cpt_code <=? 33877))
       || ((33910 <=? cpt_code) && (cpt_code <=? 33926))
       || ((33927 <=? cpt_code) && (cpt_code <=? 33945))
       || ((33975 <=? cpt_code) && (cpt_code <=? 33983))
    then true
    else false.

Definition is_ep_cath_surgical_cpt (cpt_code : string) : bool :=
  if negb (Py.isdigit cpt_code) then false
  else
    let cpt_code := Py.int_of_digits (Py.chars cpt_code) in
    if ((33016 <=? cpt_code) && (cpt_code <=? 33019))
       || ((33202 <=? cpt_code) && (cpt_code <=? 33275))
       || ((33285 <=? cpt_code) && (cpt_code <=? 33286))
       || (cpt_code =? 33289)
       || ((92920 <=? cpt_code) && (cpt_code <=? 92979))
       || ((92950 <=? cpt_code) && (cpt_code <=? 92985))
       || (cpt_code =? 92998)
       || ((93451 <=? cpt_code) && (cpt_code <=? 93533))
       || ((93600 <=? cpt_code) && (cpt_code <=? 93662))
    then true
    else false.

Definition is_transcatheter_endovascular_surgical_cpt (cpt_code : string) : bool :=
  if negb (Py.isdigit cpt_code) then false
  else
    let cpt_code := Py.int_of_digits (Py.chars cpt_code) in
    if (cpt_code =? 33340)
       || ((33361 <=? cpt_code) && (cpt_code <=? 33364))
       || ((33418 <=? cpt_code) && (cpt_code <=? 33420))
       || (cpt_code =? 33477)
       || ((33880 <=? cpt_code) && (cpt_code <=? 33891))
       || ((33990 <=? cpt_code) && (cpt_code <=? 33993))
       || (cpt_code =? 92986)
       || (cpt_code =? 92987)
       || (cpt_code =? 92990)
       || ((93580 <=? cpt_code) && (cpt_code <=? 93592))
    then true
    else false.

Definition is_other_cardiac_surgical_cpt (cpt_code : string) : bool :=
  if negb (Py.isdigit cpt_code) then false
  else
    let cpt_code := Py.int_of_digits (Py.chars cpt_code) in
    if ((33016 <=? cpt_code) && (cpt_code <=? 33019))
       || (cpt_code =? 33025)
       || (cpt_code =? 35820)
       || (cpt_code =? 35840)
       || ((33365 <=? cpt_code) && (cpt_code <=? 33369))
       || (cpt_code =? 33320)
       || (cpt_code =? 33330)
       || ((33946 <=? cpt_code) && (cpt_code <=? 33959))
       || ((33962 <=? cpt_code) && (cpt_code <=? 33974))
       || ((33984 <=? cpt_code) && (cpt_code <=? 33989))
       || (cpt_code =? 33999)
    then true
    else false.

(** [cardiac_procedure_type]: 1 Open, 2 EP/Cath, 3 Transcatheter/Endovascular,
    4 Other, 0 not cardiac; the first predicate that matches decides. *)
Definition cardiac_procedure_type (cpt_code : string) : Z :=
  if is_open_cardiac_surgical_cpt cpt_code then 1
  else if is_ep_cath_surgical_cpt cpt_code then 2
  else if is_transcatheter_endovascular_surgical_cpt cpt_code then 3
  else if is_other_cardiac_surgical_cpt cpt_code then 4
  else 0.

(** ** Reference tables *)

Record cpt_ccs_row : Type := {
  cpt_code_range : string;
  ccs_numerical_label : Z
}.

(** The body of the loop of [__init__] over the rows of the CPT range table:
    one row's codes are added to [cpt_to_ccs]. The unpacking of
    [split('-')] needs exactly two parts and both calls of [int] can raise
    [ValueError]. The positions of the numeric body are those of
    [code_from], and are also applied to [code_to]. *)
Definition expand_cpt_row (cpt_to_ccs : gmap string Z) (row : cpt_ccs_row)
  : result (gmap string Z) :=
  match Py.split "-" (cpt_code_range row) with
  | [code_from; code_to] =>
      let '(code_start_alpha, code_num_start_idx) :=
        if Py.search_leading_upper code_from
        then (Py.first code_from, 1%nat)
        else (EmptyString, 0%nat) in
      let '(code_end_alpha, code_num_end_idx) :=
        if Py.search_trailing_upper code_from
        then (Py.last code_from, (Py.len code_from - 1)%nat)
        else (EmptyString, Py.len code_from) in
      code_from_num ← Py.int (Py.slice code_from code_num_start_idx code_num_end_idx);
      code_to_num ← Py.int (Py.slice code_to code_num_start_idx code_num_end_idx);
      let code_num_len := (code_num_end_idx - code_num_start_idx)%nat in
      Ok (foldl
            (λ d code_num,
               <[ (code_start_alpha +:+ Py.format_0d code_num_len code_num
                     +:+ code_end_alpha)%string
                  := ccs_numerical_label row ]> d)
            cpt_to_ccs
            (Py.range code_from_num (code_to_num + 1)))
  | _ => Raise ValueError
  end.

(** The whole loop, started from the empty dict. *)
Fixpoint expand_cpt_rows (cpt_to_ccs : gmap string Z) (rows : list cpt_ccs_row)
  : result (gmap string Z) :=
  match rows with
  | [] => Ok cpt_to_ccs
  | row :: rows' =>
      cpt_to_ccs' ← expand_cpt_row cpt_to_ccs row;
      expand_cpt_rows cpt_to_ccs' rows'
  end.

Definition build_cpt_to_ccs (df_cpt_ccs_mapping : list cpt_ccs_row)
  : result (gmap string Z) :=
  expand_cpt_rows ∅ df_cpt_ccs_mapping.

(** The format of a range cell as the specification words it: each end is
    [[A-Z]? digits [A-Z]?], and the two ends share the leading letter, the
    trailing letter and the width of the numeric body. *)
Module RangeGrammar.

Record endpoint : Type := {
  prefix : option ascii;
  body : list ascii;
  suffix : option ascii
}.

Definition parse_endpoint (s : string) : option endpoint :=
  let cs := Py.chars s in
  let '(p, cs1) :=
    match cs with
    | c :: r => if Py.is_upper c then (Some c, r) else (None, cs)
    | [] => (None, cs)
    end in
  let '(q, cs2) :=
    match rev cs1 with
    | c :: r => if Py.is_upper c then (Some c, rev r) else (None, cs1)
    | [] => (None, cs1)
    end in
  match cs2 with
  | [] => None
  | _ => if forallb Py.is_digit cs2
         then Some {| prefix := p; body := cs2; suffix := q |}
         else None
  end.

Definition well_formed (range : string) : bool :=
  match Py.split "-" range with
  | [code_from; code_to] =>
      match parse_endpoint code_from, parse_endpoint code_to with
      | Some a, Some b =>
          bool_decide (prefix a = prefix b)
          && bool_decide (suffix a = suffix b)
          && bool_decide (length (body a) = length (body b))
      | _, _ => false
      end
  | _ => false
  end.

End RangeGrammar.

(** ** The warehouse

    The program reads the warehouse through SQL queries. A [Dataset] gives
    the rows the joins of these queries produce; the time windows of the
    [WHERE] clauses are written out below as filters on these rows. *)

Inductive CodeType : Set := CPT4 | ICD10PCS.

Record ProcedureCode : Type := {
  type : CodeType;
  code : string
}.

Record CategoryResult : Type := {
  code_type : string;
  result_code : string;
  is_cardiac : bool;
  cardiac_subclass : option string;
  procedural_category : string
}.

Record PostopCreatinine : Type := {
  within_2_days : option R;
  within_7_days : option R
}.

(** A row of [procedure_occurrence JOIN measurement ON person_id] (with
    [person] and the latest body height of the visit joined in) for one
    procedure: a serum-creatinine measurement of the procedure's patient
    with a recognised unit, a value and a time. *)
Record creatinine_row : Type := {
  measurement_datetime : Z;
  value_as_number : R;
  unit_source_value : string;
  procedure_datetime : Z;
  age : Z;
  gender_concept_id : Z;
  body_height : option R
}.

(** A row of [query_procedures]: a procedure of the patient whose concept is
    in [all_surgical_concept_ids], done at an age of 18 or more, in a visit
    that has a creatinine measurement. [proc_datetime] is the column
    [procedure_datetime]. *)
Record procedure_row : Type := {
  procedure_occurrence_id : Z;
  proc_datetime : Z
}.

Record Dataset : Type := {
  (** [query_proc_code]: rows [(vocabulary_id, concept_code)]. *)
  read_proc_code : Z → list (string * string);
  (** The serum-creatinine rows of a procedure's patient. *)
  read_creatinine : Z → list creatinine_row;
  (** [query_person_id]. *)
  read_person_id : Z → list Z;
  (** [query_procedures], by person. *)
  read_procedures : Z → list procedure_row
}.

Record AKITool : Type := {
  dataset : Dataset;
  icd10_code_to_category : gmap string string;
  cardiac_icd10_code_to_category_code : gmap string Z;
  ccs_num_label_to_text : gmap Z string;
  cpt_to_ccs : gmap string Z
}.

Definition MALE_CONCEPT_ID : Z := 45880669.

Definition CARDIAC_SUBCLASS_CODE_TO_NAME : gmap Z string :=
  <[ 4 := "Other"%string ]>
    (<[ 3 := "Transcatheter/Endovascular"%string ]>
       (<[ 2 := "EP/Cath"%string ]> (<[ 1 := "Open"%string ]> ∅))).

(** [CodeType[name]] for the names of [COVERED_CODE_TYPES]. *)
Definition CodeType_of_name (name : string) : option CodeType :=
  if String.eqb name "CPT4" then Some CPT4
  else if String.eqb name "ICD10PCS" then Some ICD10PCS
  else None.

(** ** Procedure code classifier *)

(** [is_cardiac_procedure]. [CodeType] has no third member, so the final
    [return None] of the source is never reached. *)
Definition is_cardiac_procedure (self : AKITool) (concept_code : ProcedureCode)
  : result bool :=
  match type concept_code with
  | ICD10PCS =>
      category ← Py.getitem (icd10_code_to_category self) (code concept_code);
      if bool_decide (category ∈ ["CARD"; "CBGB"; "CBGC"; "HTP"; "PACE"]%string)
      then Ok true
      else Ok false
  | CPT4 =>
      if 0 <? cardiac_procedure_type (code concept_code)
      then Ok true
      else Ok false
  end.

Definition classify_surgical_procedure (self : AKITool) (proc_id : Z)
  : result (option CategoryResult) :=
  match read_proc_code (dataset self) proc_id with
  | [] => Ok None
  | (vocabulary_id, concept_code) :: _ =>
      match CodeType_of_name vocabulary_id with
      | None => Ok None
      | Some ty =>
          let proc_code := {| type := ty; code := concept_code |} in
          is_cardiac ← is_cardiac_procedure self proc_code;
          cardiac_subclass ←
            (if is_cardiac : bool then
               let cardiac_subclass_code :=
                 match type proc_code with
                 | CPT4 => cardiac_procedure_type (code proc_code)
                 | ICD10PCS =>
                     Py.get (cardiac_icd10_code_to_category_code self) (code proc_code) 4
                 end in
               name ← Py.getitem CARDIAC_SUBCLASS_CODE_TO_NAME cardiac_subclass_code;
               Ok (Some name)
             else Ok None);
          procedural_category ←
            match type proc_code with
            | CPT4 =>
                Ok (match cpt_to_ccs self !! code proc_code with
                    | Some label =>
                        Py.get (ccs_num_label_to_text self) label
                          "Does not map to any procedure in range"%string
                    | None => "Does not map to any procedure in range"%string
                    end)
            | ICD10PCS => Py.getitem (icd10_code_to_category self) (code proc_code)
            end;
          Ok (Some {| code_type := vocabulary_id;
                      result_code := concept_code;
                      is_cardiac := is_cardiac;
                      cardiac_subclass := cardiac_subclass;
                      procedural_category := procedural_category |})
      end
  end.

(** ** Creatinine normaliser *)

#[local] Open Scope R_scope.

(** One day, in microseconds. *)
Definition DAY : Z := 86400000000.

(** The value of a row in mg/dL; [None] where the loop body says
    [continue] because of the unit. *)
Definition creatinine_mg_dl (row : creatinine_row) : option R :=
  let creatinine := value_as_number row in
  let unit := unit_source_value row in
  if String.eqb unit "umol/L" then Some (creatinine / 88.4)
  else if negb (bool_decide (unit ∈ ["mg/dL"; "258797006"]%string)) then None
  else Some creatinine.

(** The body of the loop that the three creatinine readers share: the
    running maximum after one more row. *)
Definition creatinine_step (max_creatinine : R) (row : creatinine_row) : R :=
  match creatinine_mg_dl row with
  | None => max_creatinine
  | Some creatinine =>
      if Py.lt creatinine 0.2 || Py.ge creatinine 25 then max_creatinine
      else Rmax max_creatinine creatinine
  end.

(** The loop, from [max_creatinine = -1.0]. *)
Definition max_creatinine_of (df : list creatinine_row) : R :=
  foldl creatinine_step (-1.0) df.

(** ** Baseline and post-operative readers *)

(** [measurement_datetime BETWEEN procedure_datetime - 60 days AND
    procedure_datetime]. *)
Definition in_preop_window (row : creatinine_row) : Prop :=
  (procedure_datetime row - 60 * DAY ≤ measurement_datetime row
   ∧ measurement_datetime row ≤ procedure_datetime row)%Z.

(** [measurement_datetime > procedure_datetime AND measurement_datetime <=
    procedure_datetime + within_n_days days]. *)
Definition in_postop_window (within_n_days : Z) (row : creatinine_row) : Prop :=
  (procedure_datetime row < measurement_datetime row
   ∧ measurement_datetime row ≤ procedure_datetime row + within_n_days * DAY)%Z.

#[global] Instance in_preop_window_dec row : Decision (in_preop_window row).
Proof. unfold in_preop_window. apply _. Defined.

#[global] Instance in_postop_window_dec n row : Decision (in_postop_window n row).
Proof. unfold in_postop_window. apply _. Defined.

Definition query_preop (ds : Dataset) (proc_id : Z) : list creatinine_row :=
  filter in_preop_window (read_creatinine ds proc_id).

Definition query_postop_creatinine (ds : Dataset) (proc_id : Z) (within_n_days : Z)
  : list creatinine_row :=
  filter (in_postop_window within_n_days) (read_creatinine ds proc_id).

Definition get_highest_preop_creatinine (self : AKITool) (proc_id : Z) : option R :=
  let df_highest_preop_creatinine := query_preop (dataset self) proc_id in
  if (length df_highest_preop_creatinine =? 0)%nat then None
  else
    let max_creatinine := max_creatinine_of df_highest_preop_creatinine in
    if Py.lt max_creatinine 0.0 then None
    else Some max_creatinine.

(** The constants of the adult formula, [(kappa, alpha, multiplier)]. *)
Definition adult_constants (is_male : bool) : R * R * R :=
  (if is_male then 0.9 else 0.7,
   if is_male then -0.302 else -0.241,
   if is_male then 1.0 else 1.01).

(** The estimate before the range check and the rounding; [None] where the
    source returns [None] for a minor without a height. *)
Definition egfr_estimate (max_creatinine : R) (age : Z) (gender : Z)
    (height : option R) : option R :=
  if (18 <=? age)%Z then
    let is_male := (gender =? MALE_CONCEPT_ID)%Z in
    let '(kappa, alpha_exponent, final_multiplier) := adult_constants is_male in
    let inner_factor := max_creatinine / kappa in
    Some (142
          * Py.pow (Rmin inner_factor 1.0) alpha_exponent
          * Py.pow (Rmax inner_factor 1.0) (-1.2)
          * Py.pow 0.9938 (IZR age)
          * final_multiplier)
  else
    match height with
    | None => None
    | Some height => Some (0.413 * height / max_creatinine)
    end.

(** The end of [get_preop_egfr]: the range check, then the rounding. *)
Definition checked_round (egfr : R) : option Z :=
  if Py.le egfr 0 || Py.ge egfr 300 then None
  else Some (Py.round egfr).

Definition get_preop_egfr (self : AKITool) (proc_id : Z) : result (option Z) :=
  let df_preop_egfr := query_preop (dataset self) proc_id in
  let max_creatinine := max_creatinine_of df_preop_egfr in
  if Py.lt max_creatinine 0 then Ok None
  else
    row0 ← Py.iloc0 df_preop_egfr;
    match egfr_estimate max_creatinine (age row0) (gender_concept_id row0)
            (body_height row0) with
    | None => Ok None
    | Some egfr => Ok (checked_round egfr)
    end.

(** One turn of the loop over [(2, 7)] in [get_postop_creatinine]. *)
Definition postop_peak (self : AKITool) (proc_id : Z) (within_n_days : Z) : option R :=
  let df_postop_creatinine :=
    query_postop_creatinine (dataset self) proc_id within_n_days in
  let max_creatinine := max_creatinine_of df_postop_creatinine in
  if Py.lt max_creatinine 0.0 then None else Some max_creatinine.

Definition get_postop_creatinine (self : AKITool) (proc_id : Z) : PostopCreatinine :=
  {| within_2_days := postop_peak self proc_id 2;
     within_7_days := postop_peak self proc_id 7 |}.

(** ** Close-surgery detector *)

#[local] Open Scope Z_scope.

(** [sorted(set(xs))]. *)
Definition sorted_set (xs : list Z) : list Z :=
  merge_sort Z.le (elements (list_to_set xs : gset Z)).

(** [{l[i]: l[i + 1] for i in range(len(l) - 1)}]. *)
Definition successor_dict (l : list Z) : gmap Z Z :=
  foldl (λ d i, <[ l !!! i := l !!! (i + 1)%nat ]> d) ∅ (seq 0 (length l - 1)).

(** [pd.Timedelta(n, 'day')]. *)
Definition Timedelta_day (n : Z) : Z := n * DAY.
Arguments Timedelta_day : simpl never.

(** [set(filter(lambda x: x > lo, ts)) & set(filter(lambda x: x <= hi, ts))]. *)
Definition between_set (lo hi : Z) (ts : list Z) : gset Z :=
  list_to_set (filter (λ x, lo < x) ts) ∩ list_to_set (filter (λ x, x ≤ hi) ts).

(** The loop over the rows of [df_procedures]. A row of another procedure
    is skipped; a row of [proc_id] returns, except when a creatinine lies
    between the two surgeries, where the loop goes on. *)
Fixpoint scan_procedures (proc_id : Z) (proc_dt_to_next_proc_dt : gmap Z Z)
    (creatinine_datetimes : list Z) (rows : list procedure_row) : bool :=
  match rows with
  | [] => false
  | row :: rows' =>
      if negb (procedure_occurrence_id row =? proc_id)
      then scan_procedures proc_id proc_dt_to_next_proc_dt creatinine_datetimes rows'
      else
        let proc_datetime := proc_datetime row in
        match proc_dt_to_next_proc_dt !! proc_datetime with
        | None => false
        | Some next_proc_datetime =>
            if Timedelta_day 7 <? next_proc_datetime - proc_datetime then false
            else if (size (between_set proc_datetime next_proc_datetime
                             creatinine_datetimes) =? 0)%nat
            then true
            else scan_procedures proc_id proc_dt_to_next_proc_dt
                   creatinine_datetimes rows'
        end
  end.

(** The part of the detector that follows the queries. *)
Definition close_surgery (proc_id : Z) (creatinine_datetimes : list Z)
    (df_procedures : list procedure_row) : bool :=
  let sorted_unique_proc_datetimes := sorted_set (proc_datetime <$> df_procedures) in
  let proc_dt_to_next_proc_dt := successor_dict sorted_unique_proc_datetimes in
  scan_procedures proc_id proc_dt_to_next_proc_dt creatinine_datetimes df_procedures.

(** [query_serum_creatinine_datetime ... ORDER BY measurement_datetime]. *)
Definition query_serum_creatinine_datetime (ds : Dataset) (proc_id : Z) : list Z :=
  merge_sort Z.le (measurement_datetime <$> read_creatinine ds proc_id).

Definition has_close_surgery_without_creatinine_between_surgeries
    (self : AKITool) (proc_id : Z) : result bool :=
  let creatinine_datetimes := query_serum_creatinine_datetime (dataset self) proc_id in
  person_id ← Py.iloc0 (read_person_id (dataset self) proc_id);
  let df_procedures := read_procedures (dataset self) person_id in
  Ok (close_surgery proc_id creatinine_datetimes df_procedures).

(** ** AKI staging *)

(** The comparisons that end [acute_kidney_injury]. *)
Definition stage_of (baseline_creatinine : R) (postop_creatinine : PostopCreatinine)
    (within_7 : R) : Z :=
  if Py.ge within_7 (3.0 * baseline_creatinine) then 3
  else if Py.ge within_7 (2.0 * baseline_creatinine) then 2
  else if Py.ge within_7 (1.5 * baseline_creatinine) then 1
  else if match within_2_days postop_creatinine with
          | Some within_2 => Py.ge within_2 (0.3 + baseline_creatinine)
          | None => false
          end
  then 1
  else 0.

Definition acute_kidney_injury (self : AKITool) (proc_id : Z) : result Z :=
  match get_highest_preop_creatinine self proc_id with
  | None => Ok (-3)
  | Some highest_preop_creatinine =>
      preop_egfr_lowest ← get_preop_egfr self proc_id;
      if match preop_egfr_lowest with
         | Some egfr => egfr <? 15
         | None => false
         end
      then Ok (-2)
      else
        let postop_creatinine := get_postop_creatinine self proc_id in
        match within_7_days postop_creatinine with
        | None => Ok (-1)
        | Some within_7 =>
            has_close_surgery ←
              has_close_surgery_without_creatinine_between_surgeries self proc_id;
            if has_close_surgery : bool then Ok (-4)
            else
              let baseline_creatinine := highest_preop_creatinine in
              Ok (stage_of baseline_creatinine postop_creatinine within_7)
        end
  end.

(** ** Notions used in the statements *)

(** A row survives the normaliser with value [c]: a recognised unit and a
    value in [0.2, 25) once in mg/dL. *)
Definition survives (row : creatinine_row) (c : R) : Prop :=
  creatinine_mg_dl row = Some c ∧ (0.2 <= c < 25)%R.

(** [v] is the largest surviving value of [df]. *)
Definition max_surviving (df : list creatinine_row) (v : R) : Prop :=
  (∃ row, row ∈ df ∧ survives row v)
  ∧ ∀ row c, row ∈ df → survives row c → (c <= v)%R.

(** [tn] is the next distinct timestamp after [t] among [ts]. *)
Definition next_distinct (ts : list Z) (t tn : Z) : Prop :=
  tn ∈ ts ∧ t < tn ∧ ∀ u, u ∈ ts → ¬ (t < u ∧ u < tn).

(** The CKD-EPI creatinine equation in the words of the specification,
    [142 * min(Cr/kappa, 1)^alpha * max(Cr/kappa, 1)^(-1.2) * 0.9938^age *
    sexMultiplier], with its constants left open. *)
Definition ckd_epi (kappa alpha multiplier : R) (cr : R) (age : Z) : R :=
  (142
   * Py.pow (Rmin (cr / kappa) 1) alpha
   * Py.pow (Rmax (cr / kappa) 1) (-1.2)
   * Py.pow 0.9938 (IZR age)
   * multiplier)%R.

(** The constants as the specification lists them. *)
Definition spec_kappa (is_male : bool) : R := if is_male then 0.9%R else 0.7%R.
Definition spec_alpha (is_male : bool) : R := if is_male then (-0.302)%R else (-0.241)%R.
Definition spec_multiplier (is_male : bool) : R := if is_male then 1.0%R else 1.012%R.

(** The positions [code_num_start_idx] and [code_num_end_idx] that
    [expand_cpt_row] derives from [code_from]. *)
Definition numeric_body_bounds (code_from : string) : nat * nat :=
  (if Py.search_leading_upper code_from then 1%nat else 0%nat,
   if Py.search_trailing_upper code_from
   then (Py.len code_from - 1)%nat else Py.len code_from).



(** ** Example data *)

(** A tool whose warehouse knows procedure 1 as the ICD10PCS code 02100Z9,
    with empty reference tables. *)
Definition icd10_example : AKITool :=
  {| dataset := {| read_proc_code := λ _, [("ICD10PCS", "02100Z9")]%string;
                   read_creatinine := λ _, [];
                   read_person_id := λ _, [1];
                   read_procedures := λ _, [] |};
     icd10_code_to_category := ∅;
     cardiac_icd10_code_to_category_code := ∅;
     ccs_num_label_to_text := ∅;
     cpt_to_ccs := ∅ |}.

Definition example_row (t : Z) (v : R) (unit : string) (age gender : Z)
    (height : option R) : creatinine_row :=
  {| measurement_datetime := t;
     value_as_number := v;
     unit_source_value := unit;
     procedure_datetime := 0;
     age := age;
     gender_concept_id := gender;
     body_height := height |}.

(** A tool over a warehouse with one patient (person 1), whose procedures
    all happen at time 0 as far as the creatinine rows are concerned. *)
Definition example_tool (rows : list creatinine_row) (procs : list procedure_row)
  : AKITool :=
  {| dataset := {| read_proc_code := λ _, [];
                   read_creatinine := λ _, rows;
                   read_person_id := λ _, [1];
                   read_procedures := λ _, procs |};
     icd10_code_to_category := ∅;
     cardiac_icd10_code_to_category_code := ∅;
     ccs_num_label_to_text := ∅;
     cpt_to_ccs := ∅ |}.

(** Two creatinine draws, one and three days after the procedure. *)
Definition postop_example : AKITool :=
  example_tool [example_row DAY 1.3 "mg/dL" 40 0 None;
                example_row (3 * DAY) 1.5 "mg/dL" 40 0 None] [].

(** A minor without a recorded height: baseline 1.0 mg/dL at the time of the
    procedure, 3.0 mg/dL one day later. *)
Definition stage3_example : AKITool :=
  example_tool [example_row 0 1.0 "mg/dL" 10 0 None;
                example_row DAY 3.0 "mg/dL" 10 0 None] [].

(** The same patient with 1.3 mg/dL after one day and 1.4 mg/dL after three. *)
Definition stage1_example : AKITool :=
  example_tool [example_row 0 1.0 "mg/dL" 10 0 None;
                example_row DAY 1.3 "mg/dL" 10 0 None;
                example_row (3 * DAY) 1.4 "mg/dL" 10 0 None] [].

(** A ten-year-old, 145.1 cm tall, with a creatinine of 0.2 mg/dL. *)
Definition minor_example : AKITool :=
  example_tool [example_row 0 0.2 "mg/dL" 10 0 (Some 145.1%R)] [].

(** A ten-year-old, 10 cm tall, with a creatinine of 24 mg/dL. *)
Definition low_example : AKITool :=
  example_tool [example_row 0 24 "mg/dL" 10 0 (Some 10%R)] [].

(** A 40-year-old man with a creatinine of 0.9 mg/dL. *)
Definition man40_example : AKITool :=
  example_tool [example_row 0 0.9 "mg/dL" 40 MALE_CONCEPT_ID None] [].

(** A 19-year-old woman with a creatinine of 0.7 mg/dL. *)
Definition woman19_example : AKITool :=
  example_tool [example_row 0 0.7 "mg/dL" 19 0 None] [].

(** Two surgeries of the same patient exactly seven days apart; the only
    creatinine was drawn the day before the first. *)
Definition seven_days_example : AKITool :=
  example_tool [example_row (- DAY) 1.0 "mg/dL" 40 0 None]
    [{| procedure_occurrence_id := 1; proc_datetime := 0 |};
     {| procedure_occurrence_id := 2; proc_datetime := 7 * DAY |}].

(** The patient of [stage3_example] again; the surgical history holds two
    other procedures, a day apart, and not procedure 1. *)
Definition filtered_example : AKITool :=
  example_tool [example_row 0 1.0 "mg/dL" 10 0 None;
                example_row DAY 3.0 "mg/dL" 10 0 None]
    [{| procedure_occurrence_id := 2; proc_datetime := 0 |};
     {| procedure_occurrence_id := 3; proc_datetime := DAY |}].

(** ** Anaesthesia code predicates *)

Definition is_obstetric_anesthesia (cpt_code : string) : bool :=
  if bool_decide (cpt_code ∈ ["01961"; "01963"; "01967"; "01968"; "01969"]%string)
  then true
  else false.

Definition is_open_cardiac_anesthesia_cpt (cpt_code : string) : bool :=
  if bool_decide
       (cpt_code ∈ ["00561"; "00562"; "00563"; "00566"; "00567"; "00580"]%string)
  then true
  else false.

(** ** Further example data *)

(** A tool whose warehouse knows procedure 1 under the given vocabulary and
    code, with the given category and cardiac-subclass tables. *)
Definition classifier_example (vocabulary_id concept_code : string)
    (categories : gmap string string) (subclasses : gmap string Z) : AKITool :=
  {| dataset := {| read_proc_code := λ _, [(vocabulary_id, concept_code)];
                   read_creatinine := λ _, [];
                   read_person_id := λ _, [1];
                   read_procedures := λ _, [] |};
     icd10_code_to_category := categories;
     cardiac_icd10_code_to_category_code := subclasses;
     ccs_num_label_to_text := ∅;
     cpt_to_ccs := ∅ |}.

(** [REGEXP_CONTAINS(concept_code, r'^(0[01][0-9]{3})$')], the pattern by
    which [__init__] selects the anaesthesia CPT concepts. *)
Definition matches_anes_pattern (concept_code : string) : bool :=
  match Py.chars concept_code with
  | [c1; c2; c3; c4; c5] =>
      Ascii.eqb c1 "0" && (Ascii.eqb c2 "0" || Ascii.eqb c2 "1")
      && Py.is_digit c3 && Py.is_digit c4 && Py.is_digit c5
  | _ => false
  end.

(** A frame with a kept reading, a reading below the range and a reading in
    an unknown unit, and the frame with the kept reading alone. *)
Definition mixed_frame : list creatinine_row :=
  [example_row 0 0.1 "mg/dL" 40 0 None;
   example_row 0 1.0 "mg/dL" 40 0 None;
   example_row 0 5.0 "g/L" 40 0 None].

Definition kept_frame : list creatinine_row :=
  [example_row 0 1.0 "mg/dL" 40 0 None].

(** [x <= y] on optional peaks, an absent peak being below everything. *)
Definition peak_le (x y : option R) : Prop :=
  match x, y with
  | None, _ => True
  | Some _, None => False
  | Some a, Some b => (a <= b)%R
  end.

(** The key that [expand_cpt_row] writes for the number [code_num] of a row
    whose first end is [code_from]:
    [f'{code_start_alpha}{code_num:0{code_num_len}d}{code_end_alpha}']. *)
Definition cpt_key (code_from : string) (code_num : Z) : string :=
  ((if Py.search_leading_upper code_from then Py.first code_from else EmptyString)
   +:+ Py.format_0d (snd (numeric_body_bounds code_from)
                     - fst (numeric_body_bounds code_from)) code_num
   +:+ (if Py.search_trailing_upper code_from then Py.last code_from
        else EmptyString))%string.

(** The row's range contains the code [k]: [k] is the key written for one
    of the numbers from the row's first number to its second. *)
Definition covers (row : cpt_ccs_row) (k : string) : Prop :=
  ∃ code_from code_to a b n,
    Py.split "-" (cpt_code_range row) = [code_from; code_to]
    ∧ Py.int (Py.slice code_from (fst (numeric_body_bounds code_from))
                (snd (numeric_body_bounds code_from))) = Ok a
    ∧ Py.int (Py.slice code_to (fst (numeric_body_bounds code_from))
                (snd (numeric_body_bounds code_from))) = Ok b
    ∧ a ≤ n ≤ b
    ∧ k = cpt_key code_from n.

(** Two rows that share the code 33017, with labels 1 and 2. *)
Definition overlapping_rows : list cpt_ccs_row :=
  [{| cpt_code_range := "33016-33019"; ccs_numerical_label := 1 |};
   {| cpt_code_range := "33017-33017"; ccs_numerical_label := 2 |}].

(** * Properties *)

(** ** Comparisons on reals *)

Section Comparisons.
#[local] Open Scope R_scope.
Implicit Types x y : R.

Lemma lt_true x y : Py.lt x y = true ↔ x < y.
Proof. unfold Py.lt. destruct (Rlt_dec x y); split; intros; (done || lra). Qed.

Lemma lt_false x y : Py.lt x y = false ↔ y <= x.
Proof. unfold Py.lt. destruct (Rlt_dec x y); split; intros; (done || lra). Qed.

Lemma le_true x y : Py.le x y = true ↔ x <= y.
Proof. unfold Py.le. destruct (Rle_dec x y); split; intros; (done || lra). Qed.

Lemma le_false x y : Py.le x y = false ↔ y < x.
Proof. unfold Py.le. destruct (Rle_dec x y); split; intros; (done || lra). Qed.

Lemma ge_true x y : Py.ge x y = true ↔ y <= x.
Proof. apply le_true. Qed.

Lemma ge_false x y : Py.ge x y = false ↔ x < y.
Proof. apply le_false. Qed.

End Comparisons.

(** Decides a comparison between real constants inside a goal. *)
Ltac real_cmp :=
  repeat match goal with
  | |- context [Py.lt ?x ?y] =>
      first [ rewrite (proj2 (lt_true x y)) by lra
            | rewrite (proj2 (lt_false x y)) by lra ]
  | |- context [Py.le ?x ?y] =>
      first [ rewrite (proj2 (le_true x y)) by lra
            | rewrite (proj2 (le_false x y)) by lra ]
  | |- context [Py.ge ?x ?y] =>
      first [ rewrite (proj2 (ge_true x y)) by lra
            | rewrite (proj2 (ge_false x y)) by lra ]
  end.

(** ** The creatinine loop *)

Section Normaliser.
#[local] Open Scope R_scope.

Lemma creatinine_step_cases m row :
  (creatinine_step m row = m ∧ ∀ c, ¬ survives row c)
  ∨ (∃ c, survives row c ∧ creatinine_step m row = Rmax m c).
Proof.
  unfold creatinine_step, survives.
  destruct (creatinine_mg_dl row) as [c|]; [|left; split; [done|]; by intros c [? _]].
  destruct (Py.lt c 0.2) eqn:E1; simpl.
  { apply lt_true in E1. left. split; [done|]. intros c' [[= <-] ?]. lra. }
  destruct (Py.ge c 25) eqn:E2.
  { apply ge_true in E2. left. split; [done|]. intros c' [[= <-] ?]. lra. }
  apply lt_false in E1. apply ge_false in E2. right. exists c. split; [|done].
  split; [done|lra].
Qed.

Lemma max_creatinine_of_snoc df row :
  max_creatinine_of (df ++ [row]) = creatinine_step (max_creatinine_of df) row.
Proof. unfold max_creatinine_of. by rewrite foldl_app. Qed.

(** The loop ends on [-1] when no row survives, and on the largest
    surviving value otherwise. *)
Lemma max_creatinine_of_spec df :
  (max_creatinine_of df = -1 ∧ ∀ row c, row ∈ df → ¬ survives row c)
  ∨ max_surviving df (max_creatinine_of df).
Proof.
  induction df as [|row df IH] using rev_ind.
  { left. split; [unfold max_creatinine_of; simpl; lra|]. intros ? ? H. inversion H. }
  rewrite max_creatinine_of_snoc.
  destruct (creatinine_step_cases (max_creatinine_of df) row) as [[-> Hno]|(c & Hc & ->)].
  - destruct IH as [[Hm Hnone]|[(r & Hr & Hs) Hmax]].
    + left. split; [done|]. intros r c [?| ->%list_elem_of_singleton]%elem_of_app; eauto.
    + right. split.
      * exists r. split; [apply elem_of_app; by left|done].
      * intros r' c' [?| ->%list_elem_of_singleton]%elem_of_app Hs'; [eauto|].
        by destruct (Hno c').
  - right. assert (Hc' := Hc). destruct Hc' as [_ Hrange].
    destruct IH as [[Hm Hnone]|[(r & Hr & Hs) Hmax]].
    + rewrite Hm. rewrite Rmax_right by lra. split.
      * exists row. split; [apply elem_of_app; right; by apply list_elem_of_singleton|done].
      * intros r' c' [Hin| ->%list_elem_of_singleton]%elem_of_app Hs'.
        { by destruct (Hnone r' c' Hin). }
        assert (c' = c) as -> by (destruct Hs', Hc; congruence). lra.
    + split.
      * destruct (Rle_dec (max_creatinine_of df) c).
        { rewrite Rmax_right by done. exists row. split; [apply elem_of_app; right; by apply list_elem_of_singleton|done]. }
        rewrite Rmax_left by lra. exists r. split; [apply elem_of_app; by left|done].
      * intros r' c' [Hin| ->%list_elem_of_singleton]%elem_of_app Hs'.
        { etrans; [by eapply Hmax|apply Rmax_l]. }
        assert (c' = c) as -> by (destruct Hs', Hc; congruence). apply Rmax_r.
Qed.

Lemma max_surviving_range df v : max_surviving df v → 0.2 <= v < 25.
Proof. intros [(r & _ & _ & ?) _]. done. Qed.

(** A result that is not negative is the largest surviving value. *)
Lemma max_creatinine_of_nonneg df :
  Py.lt (max_creatinine_of df) 0 = false → max_surviving df (max_creatinine_of df).
Proof.
  intros H%lt_false. destruct (max_creatinine_of_spec df) as [[Hm _]|?]; [lra|done].
Qed.

End Normaliser.

(** Evaluation of the time windows and of the loop on explicit rows. *)
Ltac eval_window :=
  repeat first
    [ rewrite filter_nil
    | rewrite filter_cons_True
        by (unfold in_postop_window, in_preop_window, DAY; simpl; lia)
    | rewrite filter_cons_False
        by (unfold in_postop_window, in_preop_window, DAY; simpl; lia) ].

Ltac eval_minmax :=
  repeat match goal with
  | |- context [Rmax ?a ?b] =>
      first [ rewrite (Rmax_right a b) by lra | rewrite (Rmax_left a b) by lra ]
  | |- context [Rmin ?a ?b] =>
      first [ rewrite (Rmin_right a b) by lra | rewrite (Rmin_left a b) by lra ]
  end.

Ltac eval_loop :=
  unfold max_creatinine_of; simpl foldl;
  unfold creatinine_step, creatinine_mg_dl; simpl;
  real_cmp; simpl; eval_minmax.

(** ** Rounding and powers *)

Section Rounding.
#[local] Open Scope R_scope.

Lemma round_floor_bounds x : (Zfloor x ≤ Py.round x ≤ Zfloor x + 1)%Z.
Proof. unfold Py.round. repeat case_match; lia. Qed.

(** A real strictly within a half of an integer rounds to it. *)
Lemma round_near x n : IZR n - 1 / 2 < x < IZR n + 1 / 2 → Py.round x = n.
Proof.
  intros [Hlo Hhi]. unfold Py.round.
  destruct (Rlt_dec x (IZR n)) as [Hlt|Hge].
  - assert (Zfloor x = (n - 1)%Z) as ->.
    { apply Zfloor_eq. rewrite minus_IZR. lra. }
    rewrite minus_IZR. real_cmp. lia.
  - assert (Zfloor x = n) as -> by (apply Zfloor_eq; lra).
    by real_cmp.
Qed.

Lemma round_range x : 0 < x < 300 → (0 ≤ Py.round x ≤ 300)%Z.
Proof.
  intros [Hlo Hhi]. pose proof (round_floor_bounds x) as Hb.
  pose proof (Zfloor_bound x) as [Hf1 Hf2].
  assert (0 ≤ Zfloor x)%Z by (apply Zfloor_lub; simpl; lra).
  assert (Zfloor x < 300)%Z.
  { apply lt_IZR. lra. }
  lia.
Qed.

Lemma pow_one y : Py.pow 1 y = 1.
Proof. unfold Py.pow, Rpower. by rewrite ln_1, Rmult_0_r, exp_0. Qed.

Lemma pow_nat x (n : nat) : 0 < x → Py.pow x (IZR (Z.of_nat n)) = x ^ n.
Proof. intros Hx. unfold Py.pow. rewrite <- INR_IZR_INZ. by apply Rpower_pow. Qed.

Lemma pow_pos x y : 0 < Py.pow x y.
Proof. apply exp_pos. Qed.

End Rounding.

(** ** Post-operative peaks *)

Section Postop.
#[local] Open Scope R_scope.

Lemma postop_window_mono (row : creatinine_row) :
  in_postop_window 2 row → in_postop_window 7 row.
Proof. unfold in_postop_window, DAY. lia. Qed.

Lemma query_postop_subset ds proc_id :
  query_postop_creatinine ds proc_id 2 ⊆ query_postop_creatinine ds proc_id 7.
Proof.
  unfold query_postop_creatinine. intros row [H2 Hin]%list_elem_of_filter.
  apply list_elem_of_filter. split; [by apply postop_window_mono|done].
Qed.

Lemma postop_peak_Some self proc_id n v :
  postop_peak self proc_id n = Some v →
  max_surviving (query_postop_creatinine (dataset self) proc_id n) v.
Proof.
  unfold postop_peak. destruct (Py.lt _ 0.0) eqn:E; [done|]. intros [= <-].
  apply max_creatinine_of_nonneg. rewrite <- E. f_equal. lra.
Qed.

Lemma postop_peak_None self proc_id n row c :
  postop_peak self proc_id n = None →
  row ∈ query_postop_creatinine (dataset self) proc_id n → ¬ survives row c.
Proof.
  unfold postop_peak. destruct (Py.lt _ 0.0) eqn:E; [|done]. intros _ Hin Hs.
  apply lt_true in E.
  destruct (max_creatinine_of_spec (query_postop_creatinine (dataset self) proc_id n))
    as [[_ Hnone]|Hmax].
  - by eapply Hnone.
  - apply max_surviving_range in Hmax. lra.
Qed.

End Postop.

(** C9. When the 2-day post-operative peak is present, so is the 7-day
    peak, and the 2-day peak is at most the 7-day peak: the rows of the
    2-day window are among those of the 7-day window, and each peak is the
    largest surviving normalised value of its window. *)
Theorem postop_peaks_consistent (self : AKITool) (proc_id : Z) (v2 : R) :
  within_2_days (get_postop_creatinine self proc_id) = Some v2 →
  ∃ v7,
    within_7_days (get_postop_creatinine self proc_id) = Some v7
    ∧ (v2 <= v7)%R
    ∧ query_postop_creatinine (dataset self) proc_id 2
        ⊆ query_postop_creatinine (dataset self) proc_id 7
    ∧ max_surviving (query_postop_creatinine (dataset self) proc_id 2) v2
    ∧ max_surviving (query_postop_creatinine (dataset self) proc_id 7) v7.
Proof.
  simpl. intros H2. pose proof (postop_peak_Some _ _ _ _ H2) as Hmax2.
  destruct Hmax2 as [(row & Hin & Hs) Hle2].
  pose proof (query_postop_subset (dataset self) proc_id row Hin) as Hin7.
  destruct (postop_peak self proc_id 7) as [v7|] eqn:H7.
  - exists v7. pose proof (postop_peak_Some _ _ _ _ H7) as Hmax7.
    repeat split; try done.
    + destruct Hmax7 as [_ Hle7]. by eapply Hle7.
    + apply query_postop_subset.
    + by exists row.
    + by destruct Hmax7.
    + by destruct Hmax7.
  - by destruct (postop_peak_None _ _ _ row v2 H7).
Qed.

Lemma postop_peaks_consistent_witness :
  within_2_days (get_postop_creatinine postop_example 1) = Some 1.3%R
  ∧ ∃ v7,
      within_7_days (get_postop_creatinine postop_example 1) = Some v7
      ∧ (1.3 <= v7)%R
      ∧ query_postop_creatinine (dataset postop_example) 1 2
          ⊆ query_postop_creatinine (dataset postop_example) 1 7
      ∧ max_surviving (query_postop_creatinine (dataset postop_example) 1 2) 1.3%R
      ∧ max_surviving (query_postop_creatinine (dataset postop_example) 1 7) v7.
Proof.
  assert (within_2_days (get_postop_creatinine postop_example 1) = Some 1.3%R) as H.
  { unfold postop_example, get_postop_creatinine, postop_peak,
      query_postop_creatinine, example_tool, example_row.
    simpl. eval_window. eval_loop. by real_cmp. }
  split; [exact H|]. exact (postop_peaks_consistent postop_example 1 1.3%R H).
Defined.

(** ** AKI staging *)

Section Staging.
#[local] Open Scope R_scope.

Lemma get_highest_preop_creatinine_range self proc_id b :
  get_highest_preop_creatinine self proc_id = Some b → 0.2 <= b < 25.
Proof.
  unfold get_highest_preop_creatinine. case_match; [done|].
  destruct (Py.lt _ 0.0) eqn:E; [done|]. intros [= <-].
  eapply max_surviving_range, max_creatinine_of_nonneg. rewrite <- E. f_equal. lra.
Qed.

(** The path through [acute_kidney_injury] when none of the sentinel steps
    that come before the close-surgery check fires. *)
Lemma acute_kidney_injury_past_sentinels self proc_id b egfr p2 p7 :
  get_highest_preop_creatinine self proc_id = Some b →
  get_preop_egfr self proc_id = Ok egfr →
  (∀ e, egfr = Some e → (15 ≤ e)%Z) →
  get_postop_creatinine self proc_id
    = {| within_2_days := p2; within_7_days := Some p7 |} →
  acute_kidney_injury self proc_id
    = (has_close_surgery ←
         has_close_surgery_without_creatinine_between_surgeries self proc_id;
       if has_close_surgery : bool then Ok (-4)%Z
       else Ok (stage_of b {| within_2_days := p2; within_7_days := Some p7 |} p7)).
Proof.
  intros Hb He Hge Hp. unfold acute_kidney_injury. rewrite Hb, He, Hp. simpl.
  assert (match egfr with Some e => (e <? 15)%Z | None => false end = false) as ->.
  { destruct egfr as [e|]; [|done]. apply Z.ltb_ge. by apply Hge. }
  done.
Qed.

End Staging.


Section StagingExamples.
#[local] Open Scope R_scope.




Lemma stage1_example_baseline :
  get_highest_preop_creatinine stage1_example 1 = Some 1.0.
Proof.
  unfold stage1_example, get_highest_preop_creatinine, query_preop,
    example_tool, example_row.
  simpl dataset. simpl read_creatinine. eval_window. simpl Nat.eqb. cbv iota.
  eval_loop. by real_cmp.
Qed.

Lemma stage1_example_egfr : get_preop_egfr stage1_example 1 = Ok None.
Proof.
  unfold stage1_example, get_preop_egfr, query_preop, example_tool, example_row.
  simpl dataset. simpl read_creatinine. eval_window. eval_loop. by real_cmp.
Qed.

Lemma stage1_example_postop :
  get_postop_creatinine stage1_example 1
  = {| within_2_days := Some 1.3; within_7_days := Some 1.4 |}.
Proof.
  unfold stage1_example, get_postop_creatinine, postop_peak,
    query_postop_creatinine, example_tool, example_row.
  simpl dataset. simpl read_creatinine. eval_window. eval_loop. by real_cmp.
Qed.


End StagingExamples.


(** ** eGFR *)

Section Egfr.
#[local] Open Scope R_scope.

Lemma checked_round_Some egfr v :
  checked_round egfr = Some v → 0 < egfr < 300 ∧ v = Py.round egfr.
Proof.
  unfold checked_round. destruct (Py.le egfr 0) eqn:E1; [done|].
  destruct (Py.ge egfr 300) eqn:E2; [done|]. simpl. intros [= <-].
  apply le_false in E1. apply ge_false in E2. done.
Qed.

Lemma checked_round_inside egfr :
  0 < egfr < 300 → checked_round egfr = Some (Py.round egfr).
Proof. intros H. unfold checked_round. by real_cmp. Qed.

(** What [get_preop_egfr] computes when it returns a number. *)
Lemma get_preop_egfr_Some self proc_id v :
  get_preop_egfr self proc_id = Ok (Some v) →
  ∃ row0 rest egfr,
    query_preop (dataset self) proc_id = row0 :: rest
    ∧ egfr_estimate (max_creatinine_of (row0 :: rest)) (age row0)
        (gender_concept_id row0) (body_height row0) = Some egfr
    ∧ checked_round egfr = Some v.
Proof.
  unfold get_preop_egfr. case_match; [done|].
  destruct (query_preop (dataset self) proc_id) as [|row0 rest]; [done|]. simpl.
  destruct (egfr_estimate _ _ _ _) as [egfr|] eqn:E; [|done].
  intros [= Hv]. by exists row0, rest, egfr.
Qed.

Lemma egfr_estimate_adult cr age gender height :
  (18 ≤ age)%Z →
  egfr_estimate cr age gender height
  = Some (let is_male := (gender =? MALE_CONCEPT_ID)%Z in
          ckd_epi (if is_male then 0.9 else 0.7)
            (if is_male then -0.302 else -0.241)
            (if is_male then 1.0 else 1.01) cr age).
Proof.
  intros Hage. unfold egfr_estimate. rewrite (proj2 (Z.leb_le _ _) Hage).
  unfold adult_constants, ckd_epi. simpl. replace 1.0 with 1 by lra. done.
Qed.

(** The adult branch on a frame whose first row is an adult. *)
Lemma get_preop_egfr_adult self proc_id row0 rest :
  query_preop (dataset self) proc_id = row0 :: rest →
  Py.lt (max_creatinine_of (row0 :: rest)) 0 = false →
  (18 ≤ age row0)%Z →
  get_preop_egfr self proc_id
  = Ok (checked_round
          (let is_male := (gender_concept_id row0 =? MALE_CONCEPT_ID)%Z in
           ckd_epi (if is_male then 0.9 else 0.7)
             (if is_male then -0.302 else -0.241)
             (if is_male then 1.0 else 1.01)
             (max_creatinine_of (row0 :: rest)) (age row0))).
Proof.
  intros Hq Hm Hage. unfold get_preop_egfr. rewrite Hq, Hm. simpl.
  by rewrite egfr_estimate_adult.
Qed.

(** At [cr = kappa] the inner factor is 1 and both powers of the min/max
    pair are 1. *)
Lemma ckd_epi_at_kappa kappa alpha multiplier (n : nat) :
  0 < kappa →
  ckd_epi kappa alpha multiplier kappa (Z.of_nat n)
  = 142 * 0.9938 ^ n * multiplier.
Proof.
  intros Hk. unfold ckd_epi. replace (kappa / kappa) with 1 by (field; lra).
  rewrite Rmin_left, Rmax_left by lra. rewrite !pow_one.
  rewrite pow_nat by lra. lra.
Qed.

Lemma round_man40 : Py.round (142 * 0.9938 ^ 40) = 111%Z.
Proof. apply round_near. lra. Qed.

End Egfr.

(** C4, as the code has it. Whenever [get_preop_egfr] returns a number, the
    estimate before rounding lies strictly between 0 and 300 and the number
    returned is that estimate rounded, which lies between 0 and 300, both
    included. *)
Theorem egfr_returned_range (self : AKITool) (proc_id : Z) (v : Z) :
  get_preop_egfr self proc_id = Ok (Some v) →
  0 ≤ v ≤ 300
  ∧ ∃ row0 rest (egfr : R),
      query_preop (dataset self) proc_id = row0 :: rest
      ∧ egfr_estimate (max_creatinine_of (row0 :: rest)) (age row0)
          (gender_concept_id row0) (body_height row0) = Some egfr
      ∧ (0 < egfr < 300)%R
      ∧ v = Py.round egfr.
Proof.
  intros (row0 & rest & egfr & Hq & Hest & [Hrange ->]%checked_round_Some)%get_preop_egfr_Some.
  split; [by apply round_range|]. by exists row0, rest, egfr.
Qed.

Section EgfrExamples.
#[local] Open Scope R_scope.

Lemma minor_example_egfr : get_preop_egfr minor_example 1 = Ok (Some 300%Z).
Proof.
  unfold minor_example, get_preop_egfr, query_preop, example_tool, example_row.
  simpl dataset. simpl read_creatinine. eval_window. eval_loop.
  unfold egfr_estimate, checked_round. simpl. real_cmp. simpl.
  do 2 f_equal. apply round_near. lra.
Qed.

Lemma low_example_egfr : get_preop_egfr low_example 1 = Ok (Some 0%Z).
Proof.
  unfold low_example, get_preop_egfr, query_preop, example_tool, example_row.
  simpl dataset. simpl read_creatinine. eval_window. eval_loop.
  unfold egfr_estimate, checked_round. simpl. real_cmp. simpl.
  do 2 f_equal. apply round_near. lra.
Qed.

End EgfrExamples.

Lemma egfr_returned_range_witness :
  get_preop_egfr minor_example 1 = Ok (Some 300)
  ∧ 0 ≤ 300 ≤ 300
  ∧ ∃ row0 rest (egfr : R),
      query_preop (dataset minor_example) 1 = row0 :: rest
      ∧ egfr_estimate (max_creatinine_of (row0 :: rest)) (age row0)
          (gender_concept_id row0) (body_height row0) = Some egfr
      ∧ (0 < egfr < 300)%R
      ∧ 300 = Py.round egfr.
Proof.
  split; [exact minor_example_egfr|].
  exact (egfr_returned_range minor_example 1 300 minor_example_egfr).
Defined.

(** C4 as stated fails: a ten-year-old of 145.1 cm with a creatinine of
    0.2 mg/dL has an estimate of 299.63, which passes the range check and is
    returned as 300. *)
Lemma egfr_strictly_inside_counterexample :
  get_preop_egfr minor_example 1 = Ok (Some 300)
  ∧ ¬ (∀ self proc_id v,
         get_preop_egfr self proc_id = Ok (Some v) → 0 < v < 300).
Proof.
  split; [exact minor_example_egfr|].
  intros H. specialize (H minor_example 1 300 minor_example_egfr). lia.
Qed.

(** C5, as the code has it. For an adult first row the estimate is the
    CKD-EPI equation with kappa = 0.9, alpha = -0.302 and multiplier 1.0
    when the gender is the male concept, and with kappa = 0.7,
    alpha = -0.241 and multiplier 1.01 when it is not. *)
Theorem adult_egfr_constants (self : AKITool) (proc_id : Z)
    (row0 : creatinine_row) (rest : list creatinine_row) :
  query_preop (dataset self) proc_id = row0 :: rest →
  Py.lt (max_creatinine_of (row0 :: rest)) 0 = false →
  18 ≤ age row0 →
  let cr := max_creatinine_of (row0 :: rest) in
  (gender_concept_id row0 = MALE_CONCEPT_ID →
   egfr_estimate cr (age row0) (gender_concept_id row0) (body_height row0)
   = Some (ckd_epi 0.9 (-0.302) 1.0 cr (age row0))
   ∧ get_preop_egfr self proc_id
     = Ok (checked_round (ckd_epi 0.9 (-0.302) 1.0 cr (age row0))))
  ∧ (gender_concept_id row0 ≠ MALE_CONCEPT_ID →
     egfr_estimate cr (age row0) (gender_concept_id row0) (body_height row0)
     = Some (ckd_epi 0.7 (-0.241) 1.01 cr (age row0))
     ∧ get_preop_egfr self proc_id
       = Ok (checked_round (ckd_epi 0.7 (-0.241) 1.01 cr (age row0)))).
Proof.
  intros Hq Hm Hage cr.
  pose proof (get_preop_egfr_adult self proc_id row0 rest Hq Hm Hage) as Hget.
  assert (egfr_estimate cr (age row0) (gender_concept_id row0) (body_height row0)
          = Some (let is_male := gender_concept_id row0 =? MALE_CONCEPT_ID in
                  ckd_epi (if is_male then 0.9 else 0.7)
                    (if is_male then -0.302 else -0.241)
                    (if is_male then 1.0 else 1.01) cr (age row0))%R) as Hest.
  { by apply egfr_estimate_adult. }
  simpl in Hget, Hest. split.
  - intros Hmale. apply Z.eqb_eq in Hmale. rewrite Hmale in Hget, Hest. done.
  - intros Hother. apply Z.eqb_neq in Hother. rewrite Hother in Hget, Hest. done.
Qed.

Section EgfrAdultExamples.
#[local] Open Scope R_scope.

Lemma woman19_example_query :
  query_preop (dataset woman19_example) 1 = [example_row 0 0.7 "mg/dL" 19 0 None].
Proof.
  unfold woman19_example, query_preop, example_tool. simpl dataset.
  simpl read_creatinine. unfold example_row. by eval_window.
Qed.

Lemma woman19_example_max :
  max_creatinine_of [example_row 0 0.7 "mg/dL" 19 0 None] = 0.7.
Proof. unfold example_row. by eval_loop. Qed.

Lemma woman19_example_egfr : get_preop_egfr woman19_example 1 = Ok (Some 127%Z).
Proof.
  unfold get_preop_egfr. rewrite woman19_example_query, woman19_example_max.
  real_cmp. unfold example_row.
  cbn [Py.iloc0 mbind result_bind Py.bind age gender_concept_id body_height].
  rewrite egfr_estimate_adult by lia. simpl.
  change 19%Z with (Z.of_nat 19). rewrite ckd_epi_at_kappa by lra.
  rewrite checked_round_inside by lra.
  do 2 f_equal. apply round_near. lra.
Qed.

Lemma woman19_spec_egfr :
  checked_round
    (ckd_epi (spec_kappa false) (spec_alpha false) (spec_multiplier false) 0.7 19)
  = Some 128%Z.
Proof.
  unfold spec_kappa, spec_alpha, spec_multiplier.
  change 19%Z with (Z.of_nat 19). rewrite ckd_epi_at_kappa by lra.
  rewrite checked_round_inside by lra. f_equal. apply round_near. lra.
Qed.

Lemma man40_example_query :
  query_preop (dataset man40_example) 1
  = [example_row 0 0.9 "mg/dL" 40 MALE_CONCEPT_ID None].
Proof.
  unfold man40_example, query_preop, example_tool. simpl dataset.
  simpl read_creatinine. unfold example_row. by eval_window.
Qed.

Lemma man40_example_max :
  max_creatinine_of [example_row 0 0.9 "mg/dL" 40 MALE_CONCEPT_ID None] = 0.9.
Proof. unfold example_row. by eval_loop. Qed.

(** The estimate of a 40-year-old man at 0.9 mg/dL, rounded. *)
Lemma get_preop_egfr_man40 self proc_id row0 rest :
  query_preop (dataset self) proc_id = row0 :: rest →
  max_creatinine_of (row0 :: rest) = 0.9 →
  age row0 = 40%Z →
  gender_concept_id row0 = MALE_CONCEPT_ID →
  get_preop_egfr self proc_id = Ok (Some 111%Z).
Proof.
  intros Hq Hm Hage Hmale. unfold get_preop_egfr. rewrite Hq, Hm.
  real_cmp. cbn [Py.iloc0 mbind result_bind Py.bind]. rewrite Hage, Hmale.
  rewrite egfr_estimate_adult by lia. simpl.
  change 40%Z with (Z.of_nat 40). rewrite ckd_epi_at_kappa by lra.
  replace (142 * 0.9938 ^ 40 * 1.0) with (142 * 0.9938 ^ 40) by lra.
  rewrite checked_round_inside by lra. by rewrite round_man40.
Qed.

End EgfrAdultExamples.

Lemma adult_egfr_constants_witness :
  get_preop_egfr woman19_example 1
  = Ok (checked_round (ckd_epi 0.7 (-0.241) 1.01 0.7 19)).
Proof.
  pose proof (adult_egfr_constants woman19_example 1
                (example_row 0 0.7 "mg/dL" 19 0 None) []
                woman19_example_query) as H.
  rewrite woman19_example_max in H.
  refine (proj2 (proj2 (H _ _) _)).
  - by real_cmp.
  - simpl. lia.
  - simpl. unfold MALE_CONCEPT_ID. lia.
Defined.

(** C5 as stated fails on the multiplier: for a 19-year-old woman at
    0.7 mg/dL the program returns 127, where the equation with the
    multiplier 1.012 gives 128. *)
Lemma adult_egfr_spec_constants_counterexample :
  get_preop_egfr woman19_example 1 = Ok (Some 127)
  ∧ checked_round
      (ckd_epi (spec_kappa false) (spec_alpha false) (spec_multiplier false) 0.7 19)
    = Some 128
  ∧ get_preop_egfr woman19_example 1
    ≠ Ok (checked_round
            (ckd_epi (spec_kappa false) (spec_alpha false) (spec_multiplier false)
               0.7 19)).
Proof.
  split; [exact woman19_example_egfr|]. split; [exact woman19_spec_egfr|].
  rewrite woman19_example_egfr, woman19_spec_egfr. intros [=].
Qed.

(** C7, as the code has it. For a 40-year-old man whose normalised
    creatinine is 0.9 mg/dL the inner factor is 1, both powers of the
    min/max pair are 1, and the value returned is
    round(142 * 0.9938^40) = 111. *)
Theorem egfr_man40_boundary (self : AKITool) (proc_id : Z)
    (row0 : creatinine_row) (rest : list creatinine_row) :
  query_preop (dataset self) proc_id = row0 :: rest →
  max_creatinine_of (row0 :: rest) = 0.9%R →
  age row0 = 40 →
  gender_concept_id row0 = MALE_CONCEPT_ID →
  (0.9 / 0.9 = 1)%R
  ∧ Py.pow (Rmin (0.9 / 0.9) 1.0) (-0.302) = 1%R
  ∧ Py.pow (Rmax (0.9 / 0.9) 1.0) (-1.2) = 1%R
  ∧ Py.round (142 * 0.9938 ^ 40) = 111
  ∧ get_preop_egfr self proc_id = Ok (Some 111).
Proof.
  intros Hq Hm Hage Hmale.
  assert (0.9 / 0.9 = 1)%R as Hone by lra.
  rewrite Hone. rewrite Rmin_left, Rmax_left by lra. rewrite !pow_one.
  repeat split; [apply round_man40|]. by eapply get_preop_egfr_man40.
Qed.

Lemma egfr_man40_boundary_witness :
  get_preop_egfr man40_example 1 = Ok (Some 111).
Proof.
  refine (proj2 (proj2 (proj2 (proj2
    (egfr_man40_boundary man40_example 1
       (example_row 0 0.9 "mg/dL" 40 MALE_CONCEPT_ID None) []
       man40_example_query man40_example_max _ _))))); reflexivity.
Defined.

(** C7 as stated fails on the number: the value returned is 111, not 110. *)
Lemma egfr_man40_counterexample :
  get_preop_egfr man40_example 1 = Ok (Some 111)
  ∧ get_preop_egfr man40_example 1 ≠ Ok (Some 110).
Proof.
  assert (get_preop_egfr man40_example 1 = Ok (Some 111)) as H.
  { eapply get_preop_egfr_man40;
      [exact man40_example_query|exact man40_example_max|reflexivity|reflexivity]. }
  split; [exact H|]. rewrite H. intros [=].
Qed.

(** ** Procedure code classifier *)

(** C1, where the code departs from the specification. The code 33025 matches the
    Open predicate, whose exclusion compares the integer code with a string
    and so never excludes; it also matches the Other predicate, and
    [cardiac_procedure_type] returns 1 (Open) for it, not 4. *)
Theorem cpt_33025_is_open :
  is_open_cardiac_surgical_cpt "33025" = true
  ∧ is_other_cardiac_surgical_cpt "33025" = true
  ∧ cardiac_procedure_type "33025" = 1.
Proof. repeat split; reflexivity. Qed.

(** C8. An ICD10PCS procedure whose code is absent from the category table
    makes [classify_surgical_procedure] raise [KeyError]. *)
Theorem icd10_absent_code_raises (self : AKITool) (proc_id : Z)
    (concept_code : string) (rest : list (string * string)) :
  read_proc_code (dataset self) proc_id = ("ICD10PCS"%string, concept_code) :: rest →
  icd10_code_to_category self !! concept_code = None →
  classify_surgical_procedure self proc_id = Raise KeyError.
Proof.
  intros Hrow Habsent. unfold classify_surgical_procedure. rewrite Hrow. simpl.
  unfold is_cardiac_procedure, Py.getitem. simpl. by rewrite Habsent.
Qed.

Lemma icd10_absent_code_raises_witness :
  classify_surgical_procedure icd10_example 1 = Raise KeyError.
Proof.
  apply (icd10_absent_code_raises icd10_example 1 "02100Z9" []); reflexivity.
Defined.

(** ** CPT range expansion *)






(** ** Close-surgery detector *)

Section Detector.
Implicit Types (l ts cs : list Z) (rows : list procedure_row).

Lemma StronglySorted_le_lookup l : StronglySorted Z.le l →
  ∀ i j a b, (i < j)%nat → l !! i = Some a → l !! j = Some b → a ≤ b.
Proof.
  induction 1 as [|x l Hs IH Hall]; intros i j a b Hij Ha Hb; [done|].
  destruct j as [|j]; [lia|]. simpl in Hb. destruct i as [|i]; simpl in Ha.
  - injection Ha as <-. rewrite Forall_forall in Hall.
    apply Hall. by eapply list_elem_of_lookup_2.
  - eapply (IH i j); [lia|done..].
Qed.

Lemma elem_of_sorted_set x ts : x ∈ sorted_set ts ↔ x ∈ ts.
Proof.
  unfold sorted_set.
  by rewrite merge_sort_Permutation, elem_of_elements, elem_of_list_to_set.
Qed.

Lemma NoDup_sorted_set ts : NoDup (sorted_set ts).
Proof. unfold sorted_set. rewrite merge_sort_Permutation. apply NoDup_elements. Qed.

(** [sorted(set(ts))] is strictly increasing. *)
Lemma sorted_set_increasing ts i j a b :
  (i < j)%nat → sorted_set ts !! i = Some a → sorted_set ts !! j = Some b → a < b.
Proof.
  intros Hij Ha Hb.
  assert (a ≤ b).
  { eapply (StronglySorted_le_lookup (sorted_set ts)); [|done..].
    apply StronglySorted_merge_sort; apply _. }
  assert (a ≠ b).
  { intros ->. pose proof (NoDup_lookup _ _ _ _ (NoDup_sorted_set ts) Ha Hb). lia. }
  lia.
Qed.

(** The dict comprehension maps each element to its right neighbour. *)
Lemma successor_dict_prefix l k v (n : nat) :
  NoDup l → (n ≤ length l - 1)%nat →
  foldl (λ d i, <[ l !!! i := l !!! (i + 1)%nat ]> d) (∅ : gmap Z Z) (seq 0 n) !! k
    = Some v
  ↔ ∃ i, (i < n)%nat ∧ l !! i = Some k ∧ l !! S i = Some v.
Proof.
  intros Hnd. induction n as [|n IH]; intros Hn.
  { simpl. rewrite lookup_empty. split; [done|]. intros (i & ? & _). lia. }
  rewrite seq_S, foldl_snoc. simpl.
  destruct (lookup_lt_is_Some_2 l n) as [x Hx]; [lia|].
  destruct (lookup_lt_is_Some_2 l (n + 1)) as [y Hy]; [lia|].
  rewrite (list_lookup_total_correct _ _ _ Hx), (list_lookup_total_correct _ _ _ Hy).
  replace (n + 1)%nat with (S n) in Hy by lia.
  rewrite lookup_insert. case_decide as Hk.
  - subst x. split.
    + intros [= <-]. exists n. split; [lia|done].
    + intros (i & Hi & Hik & Hiv).
      assert (i = n) as -> by (by eapply NoDup_lookup). congruence.
  - rewrite IH by lia. split.
    + intros (i & ? & ? & ?). exists i. split; [lia|done].
    + intros (i & Hi & Hik & Hiv). exists i. split; [|done].
      destruct (decide (i = n)) as [->|]; [congruence|lia].
Qed.

Lemma successor_dict_lookup l k v :
  NoDup l →
  successor_dict l !! k = Some v ↔ ∃ i, l !! i = Some k ∧ l !! S i = Some v.
Proof.
  intros Hnd. unfold successor_dict. rewrite successor_dict_prefix by done.
  split; [intros (i & _ & ? & ?); by exists i|].
  intros (i & Hk & Hv). exists i. split; [|done].
  apply lookup_lt_Some in Hv. lia.
Qed.

(** In a strictly increasing list, right neighbours are next elements. *)
Lemma neighbour_next_distinct l k v :
  (∀ i j a b, (i < j)%nat → l !! i = Some a → l !! j = Some b → a < b) →
  (∃ i, l !! i = Some k ∧ l !! S i = Some v) ↔ k ∈ l ∧ next_distinct l k v.
Proof.
  intros Hinc. unfold next_distinct. split.
  - intros (i & Hk & Hv). split; [by eapply list_elem_of_lookup_2|].
    split; [by eapply list_elem_of_lookup_2|].
    split; [by apply (Hinc i (S i)); [lia|..]|].
    intros u [j Hu]%list_elem_of_lookup_1 [Hku Huv].
    destruct (decide (j ≤ i)%nat) as [Hle|Hgt].
    + destruct (decide (j = i)) as [->|]; [simplify_eq; lia|].
      pose proof (Hinc j i u k ltac:(lia) Hu Hk). lia.
    + destruct (decide (j = S i)) as [->|]; [simplify_eq; lia|].
      pose proof (Hinc (S i) j v u ltac:(lia) Hv Hu). lia.
  - intros ([i Hk]%list_elem_of_lookup_1 & [j Hv]%list_elem_of_lookup_1 & Hlt & Hno).
    exists i. split; [done|].
    assert (i < j)%nat as Hij.
    { destruct (decide (i < j)%nat); [done|].
      destruct (decide (i = j)) as [->|]; [simplify_eq; lia|].
      pose proof (Hinc j i v k ltac:(lia) Hv Hk). lia. }
    destruct (decide (j = S i)) as [->|]; [done|].
    destruct (lookup_lt_is_Some_2 l (S i)) as [u Hu].
    { apply lookup_lt_Some in Hv. lia. }
    destruct (Hno u); [by eapply list_elem_of_lookup_2|]. split.
    + apply (Hinc i (S i)); [lia|done..].
    + apply (Hinc (S i) j); [lia|done..].
Qed.

(** The successor mapping of the source gives the next distinct
    timestamp. *)
Lemma successor_dict_sorted_set ts t tn :
  successor_dict (sorted_set ts) !! t = Some tn ↔ t ∈ ts ∧ next_distinct ts t tn.
Proof.
  rewrite successor_dict_lookup by apply NoDup_sorted_set.
  rewrite neighbour_next_distinct by apply sorted_set_increasing.
  unfold next_distinct. rewrite !elem_of_sorted_set.
  by setoid_rewrite elem_of_sorted_set.
Qed.

Lemma between_set_empty lo hi cs :
  size (between_set lo hi cs) = 0%nat ↔ ∀ c, c ∈ cs → ¬ (lo < c ∧ c ≤ hi).
Proof.
  rewrite size_empty_iff, elem_of_equiv_empty. unfold between_set. split.
  - intros Hempty c Hc [Hlo Hhi]. apply (Hempty c).
    rewrite elem_of_intersection, !elem_of_list_to_set, !list_elem_of_filter. done.
  - intros Hno c.
    rewrite elem_of_intersection, !elem_of_list_to_set, !list_elem_of_filter.
    intros [[Hlo Hc] [Hhi _]]. destruct (Hno c Hc). done.
Qed.

Lemma scan_procedures_absent proc_id (d : gmap Z Z) cs rows :
  proc_id ∉ (procedure_occurrence_id <$> rows) →
  scan_procedures proc_id d cs rows = false.
Proof.
  induction rows as [|row rows IH]; [done|]. rewrite fmap_cons, not_elem_of_cons.
  intros [Hne Hnot]. simpl.
  assert ((procedure_occurrence_id row =? proc_id) = false) as -> by lia.
  simpl. by apply IH.
Qed.

(** The loop, when procedure identifiers are unique among the rows. *)
Lemma scan_procedures_true proc_id (d : gmap Z Z) cs rows :
  NoDup (procedure_occurrence_id <$> rows) →
  scan_procedures proc_id d cs rows = true
  ↔ ∃ t tn,
      {| procedure_occurrence_id := proc_id; proc_datetime := t |} ∈ rows
      ∧ d !! t = Some tn
      ∧ tn - t ≤ Timedelta_day 7
      ∧ size (between_set t tn cs) = 0%nat.
Proof.
  induction rows as [|row rows IH]; intros Hnd.
  { simpl. split; [done|]. intros (t & tn & Hin & _). inversion Hin. }
  rewrite fmap_cons, NoDup_cons in Hnd. destruct Hnd as [Hfresh Hnd]. simpl.
  destruct (procedure_occurrence_id row =? proc_id) eqn:Hid; simpl.
  - apply Z.eqb_eq in Hid. destruct row as [id t0]. simpl in *. subst id.
    rewrite (scan_procedures_absent _ _ _ _ Hfresh).
    assert (∀ t, {| procedure_occurrence_id := proc_id; proc_datetime := t |}
                   ∈ {| procedure_occurrence_id := proc_id; proc_datetime := t0 |}
                     :: rows → t = t0) as Hsame.
    { intros t [Heq|Hin]%elem_of_cons; [congruence|].
      destruct Hfresh. apply list_elem_of_fmap.
      by exists {| procedure_occurrence_id := proc_id; proc_datetime := t |}. }
    destruct (d !! t0) as [tn0|] eqn:Hd.
    + destruct (Timedelta_day 7 <? tn0 - t0) eqn:Hgap.
      * apply Z.ltb_lt in Hgap. split; [done|].
        intros (t & tn & ->%Hsame & Hd' & Hle & _). simplify_eq. lia.
      * apply Z.ltb_ge in Hgap.
        destruct (size (between_set t0 tn0 cs) =? 0)%nat eqn:Hsz.
        -- apply Nat.eqb_eq in Hsz. split; [|done]. intros _.
           exists t0, tn0. split; [left|done].
        -- apply Nat.eqb_neq in Hsz. split; [done|].
           intros (t & tn & ->%Hsame & Hd' & _ & Hz). simplify_eq.
    + split; [done|]. intros (t & tn & ->%Hsame & Hd' & _). simplify_eq.
  - apply Z.eqb_neq in Hid. rewrite IH by done. split.
    + intros (t & tn & Hin & ?). exists t, tn. split; [by right|done].
    + intros (t & tn & [Heq|Hin]%elem_of_cons & ?); [by subst row|].
      by exists t, tn.
Qed.

Lemma elem_of_query_serum_creatinine_datetime ds proc_id c :
  c ∈ query_serum_creatinine_datetime ds proc_id
  ↔ c ∈ (measurement_datetime <$> read_creatinine ds proc_id).
Proof. unfold query_serum_creatinine_datetime. by rewrite merge_sort_Permutation. Qed.

Lemma stage_of_range b p w : 0 ≤ stage_of b p w ≤ 3.
Proof. unfold stage_of. repeat case_match; lia. Qed.

End Detector.

(** C3. With the procedure known to the warehouse and procedure
    identifiers unique among the surgical rows, the close-surgery detector
    returns true exactly when the index procedure has a next distinct
    surgical timestamp, at most 7 days later (exactly 7 days included), and
    no creatinine timestamp lies strictly after the index time and at or
    before the next surgery; it returns false otherwise. *)
Theorem close_surgery_iff (self : AKITool) (proc_id person_id : Z) (others : list Z) :
  read_person_id (dataset self) proc_id = person_id :: others →
  NoDup (procedure_occurrence_id <$> read_procedures (dataset self) person_id) →
  (∃ b, has_close_surgery_without_creatinine_between_surgeries self proc_id = Ok b)
  ∧ (has_close_surgery_without_creatinine_between_surgeries self proc_id = Ok true
     ↔ ∃ t tn,
         {| procedure_occurrence_id := proc_id; proc_datetime := t |}
           ∈ read_procedures (dataset self) person_id
         ∧ next_distinct (proc_datetime <$> read_procedures (dataset self) person_id)
             t tn
         ∧ tn - t ≤ 7 * DAY
         ∧ ∀ c, c ∈ (measurement_datetime <$> read_creatinine (dataset self) proc_id) →
                ¬ (t < c ∧ c ≤ tn)).
Proof.
  intros Hperson Hnd.
  unfold has_close_surgery_without_creatinine_between_surgeries.
  rewrite Hperson. simpl. split; [by eexists|].
  match goal with |- Ok ?b = Ok true ↔ _ =>
    trans (b = true); [split; congruence|] end.
  unfold close_surgery. rewrite scan_procedures_true by done.
  unfold Timedelta_day. split.
  - intros (t & tn & Hin & [Ht Hnext]%successor_dict_sorted_set & Hgap & Hcs).
    exists t, tn. split; [done|]. split; [done|]. split; [done|].
    intros c Hc. apply (proj1 (between_set_empty _ _ _) Hcs).
    by apply elem_of_query_serum_creatinine_datetime.
  - intros (t & tn & Hin & Hnext & Hgap & Hcs).
    exists t, tn. split; [done|]. split; [|split; [done|]].
    + apply successor_dict_sorted_set. split; [|done].
      apply list_elem_of_fmap.
      by exists {| procedure_occurrence_id := proc_id; proc_datetime := t |}.
    + apply between_set_empty. intros c Hc. apply Hcs.
      by apply elem_of_query_serum_creatinine_datetime.
Qed.

Lemma close_surgery_iff_witness :
  has_close_surgery_without_creatinine_between_surgeries seven_days_example 1 = Ok true.
Proof.
  refine (proj2 (proj2 (close_surgery_iff seven_days_example 1 1 [] _ _)) _).
  - reflexivity.
  - simpl. apply NoDup_cons. split; [|apply NoDup_singleton].
    rewrite list_elem_of_singleton. lia.
  - exists 0, (7 * DAY). simpl.
    split; [left|]. split; [|split; [lia|]].
    + split; [|split].
      * rewrite !elem_of_cons. by right; left.
      * unfold DAY. lia.
      * intros u Hu [H1 H2]. unfold DAY in *.
        rewrite !elem_of_cons, elem_of_nil in Hu. lia.
    + intros c Hc. rewrite list_elem_of_singleton in Hc. unfold DAY in *. lia.
Defined.

(** C10. When the procedure is known to the warehouse but is not among the
    rows of the filtered surgical history, the detector returns false;
    [acute_kidney_injury] then never returns -4, and past the first three
    sentinel steps it returns the stage given by the threshold
    comparisons. *)
Theorem index_absent_not_confounded (self : AKITool) (proc_id person_id : Z)
    (others : list Z) :
  read_person_id (dataset self) proc_id = person_id :: others →
  proc_id ∉ (procedure_occurrence_id <$> read_procedures (dataset self) person_id) →
  has_close_surgery_without_creatinine_between_surgeries self proc_id = Ok false
  ∧ acute_kidney_injury self proc_id ≠ Ok (-4)
  ∧ ∀ b egfr p2 p7,
      get_highest_preop_creatinine self proc_id = Some b →
      get_preop_egfr self proc_id = Ok egfr →
      (∀ e, egfr = Some e → 15 ≤ e) →
      get_postop_creatinine self proc_id
        = {| within_2_days := p2; within_7_days := Some p7 |} →
      acute_kidney_injury self proc_id
        = Ok (stage_of b {| within_2_days := p2; within_7_days := Some p7 |} p7)
      ∧ 0 ≤ stage_of b {| within_2_days := p2; within_7_days := Some p7 |} p7 ≤ 3.
Proof.
  intros Hperson Habsent.
  assert (has_close_surgery_without_creatinine_between_surgeries self proc_id
          = Ok false) as Hclose.
  { unfold has_close_surgery_without_creatinine_between_surgeries.
    rewrite Hperson. simpl. f_equal. unfold close_surgery.
    by apply scan_procedures_absent. }
  split; [done|]. split.
  - unfold acute_kidney_injury. rewrite Hclose.
    destruct (get_highest_preop_creatinine self proc_id); [|done].
    destruct (get_preop_egfr self proc_id) as [egfr|]; [|done]. simpl.
    case_match; [done|].
    destruct (postop_peak self proc_id 7); [|done]. simpl.
    intros [= Hstage].
    match type of Hstage with ?s = _ =>
      match s with stage_of ?b ?p ?w => pose proof (stage_of_range b p w) end end.
    lia.
  - intros b egfr p2 p7 Hb He Hge Hp.
    rewrite (acute_kidney_injury_past_sentinels _ _ _ _ _ _ Hb He Hge Hp), Hclose.
    split; [done|apply stage_of_range].
Qed.

Lemma index_absent_not_confounded_witness :
  has_close_surgery_without_creatinine_between_surgeries filtered_example 1 = Ok false
  ∧ acute_kidney_injury filtered_example 1 ≠ Ok (-4).
Proof.
  assert (1 ∉ (procedure_occurrence_id
                 <$> read_procedures (dataset filtered_example) 1)) as Habsent.
  { simpl. rewrite !not_elem_of_cons. repeat split; try lia. apply not_elem_of_nil. }
  pose proof (index_absent_not_confounded filtered_example 1 1 [] eq_refl Habsent)
    as (H1 & H2 & _).
  exact (conj H1 H2).
Defined.

(** * Further properties *)

(** ** CPT4 cardiac subclass *)

Section CptSubclass.




End CptSubclass.


(** ** Procedure code classifier *)




(** Case analysis on the results that a chain of binds goes through. *)
Ltac step_binds :=
  repeat match goal with
  | |- context [mbind _ ?r] => destruct r; simpl
  end.

(** X3. The classifier answers [None] exactly when the warehouse has no
    code for the procedure or the vocabulary of the code is neither CPT4
    nor ICD10PCS. *)
Theorem classify_none_iff (self : AKITool) (proc_id : Z) :
  classify_surgical_procedure self proc_id = Ok None
  ↔ read_proc_code (dataset self) proc_id = []
    ∨ ∃ vocabulary_id concept_code rest,
        read_proc_code (dataset self) proc_id = (vocabulary_id, concept_code) :: rest
        ∧ vocabulary_id ≠ "CPT4"%string ∧ vocabulary_id ≠ "ICD10PCS"%string.
Proof.
  unfold classify_surgical_procedure.
  destruct (read_proc_code (dataset self) proc_id) as [|[v c] rest] eqn:Hrow.
  { split; [by left|done]. }
  unfold CodeType_of_name.
  destruct (String.eqb v "CPT4") eqn:E1.
  { apply String.eqb_eq in E1. subst v. split.
    - by step_binds.
    - intros [[=]|(v' & c' & rest' & [= <- <- <-] & Hne & _)]. done. }
  destruct (String.eqb v "ICD10PCS") eqn:E2.
  { apply String.eqb_eq in E2. subst v. split.
    - by step_binds.
    - intros [[=]|(v' & c' & rest' & [= <- <- <-] & _ & Hne)]. done. }
  apply String.eqb_neq in E1, E2. split; [|done].
  intros _. right. by exists v, c, rest.
Qed.

Lemma subclass_name_lookup (k : Z) :
  (CARDIAC_SUBCLASS_CODE_TO_NAME !! k = None ↔ ¬ (1 ≤ k ≤ 4))
  ∧ (k = 4 → CARDIAC_SUBCLASS_CODE_TO_NAME !! k = Some "Other"%string).
Proof.
  split; [|by intros ->].
  destruct (decide (1 ≤ k ≤ 4)) as [Hk|Hk].
  - assert (k = 1 ∨ k = 2 ∨ k = 3 ∨ k = 4) as [-> | [-> | [-> | ->]]] by lia;
      (split; [discriminate|lia]).
  - split; [done|]. intros _. unfold CARDIAC_SUBCLASS_CODE_TO_NAME.
    rewrite !lookup_insert_ne by lia. apply lookup_empty.
Qed.

(** The result for an ICD10PCS code that the category table knows. *)
Lemma classify_icd10pcs_known (self : AKITool) (proc_id : Z) (concept_code : string)
    (rest : list (string * string)) (category : string) :
  read_proc_code (dataset self) proc_id = ("ICD10PCS"%string, concept_code) :: rest →
  icd10_code_to_category self !! concept_code = Some category →
  classify_surgical_procedure self proc_id
  = if bool_decide (category ∈ ["CARD"; "CBGB"; "CBGC"; "HTP"; "PACE"]%string)
    then
      match CARDIAC_SUBCLASS_CODE_TO_NAME
              !! default 4 (cardiac_icd10_code_to_category_code self !! concept_code)
      with
      | Some name =>
          Ok (Some {| code_type := "ICD10PCS"; result_code := concept_code;
                      is_cardiac := true; cardiac_subclass := Some name;
                      procedural_category := category |})
      | None => Raise KeyError
      end
    else
      Ok (Some {| code_type := "ICD10PCS"; result_code := concept_code;
                  is_cardiac := false; cardiac_subclass := None;
                  procedural_category := category |}).
Proof.
  intros Hrow Hcat. unfold classify_surgical_procedure. rewrite Hrow. simpl.
  unfold is_cardiac_procedure, Py.getitem, Py.get. cbn [type code].
  rewrite Hcat. simpl. case_bool_decide; simpl; [|done].
  destruct (cardiac_icd10_code_to_category_code self !! concept_code) as [k|]; simpl.
  - by destruct (CARDIAC_SUBCLASS_CODE_TO_NAME !! k).
  - done.
Qed.

(** X4. An ICD10PCS code that the category table knows. Outside the five
    cardiac categories the result is not cardiac and has no subclass. Inside
    them the subclass is "Other" when the subclass table lacks the code, the
    name of the table's subclass code when that is 1 to 4, and a [KeyError]
    for any other subclass code. The category of the result is the table's. *)
Theorem classify_icd10pcs (self : AKITool) (proc_id : Z) (concept_code : string)
    (rest : list (string * string)) (category : string) :
  read_proc_code (dataset self) proc_id = ("ICD10PCS"%string, concept_code) :: rest →
  icd10_code_to_category self !! concept_code = Some category →
  let result is_cardiac cardiac_subclass :=
    Ok (Some {| code_type := "ICD10PCS"; result_code := concept_code;
                is_cardiac := is_cardiac; cardiac_subclass := cardiac_subclass;
                procedural_category := category |}) in
  (category ∉ ["CARD"; "CBGB"; "CBGC"; "HTP"; "PACE"]%string →
   classify_surgical_procedure self proc_id = result false None)
  ∧ (category ∈ ["CARD"; "CBGB"; "CBGC"; "HTP"; "PACE"]%string →
     (cardiac_icd10_code_to_category_code self !! concept_code = None →
      classify_surgical_procedure self proc_id = result true (Some "Other"%string))
     ∧ (∀ k name,
          cardiac_icd10_code_to_category_code self !! concept_code = Some k →
          CARDIAC_SUBCLASS_CODE_TO_NAME !! k = Some name →
          classify_surgical_procedure self proc_id = result true (Some name))
     ∧ (∀ k,
          cardiac_icd10_code_to_category_code self !! concept_code = Some k →
          ¬ (1 ≤ k ≤ 4) →
          classify_surgical_procedure self proc_id = Raise KeyError)).
Proof.
  intros Hrow Hcat result.
  rewrite (classify_icd10pcs_known _ _ _ _ _ Hrow Hcat). split.
  - intros Hnot. by rewrite bool_decide_eq_false_2.
  - intros Hin. rewrite bool_decide_eq_true_2 by done. repeat split.
    + by intros ->.
    + intros k name Hk Hname. rewrite Hk. simpl. by rewrite Hname.
    + intros k -> Hk%subclass_name_lookup. simpl. by rewrite Hk.
Qed.

Lemma classify_icd10pcs_witness :
  classify_surgical_procedure
    (classifier_example "ICD10PCS" "02100Z9" {[ "02100Z9"%string := "CBGB"%string ]} ∅) 1
  = Ok (Some {| code_type := "ICD10PCS"; result_code := "02100Z9";
                is_cardiac := true; cardiac_subclass := Some "Other"%string;
                procedural_category := "CBGB" |}).
Proof.
  refine (proj1 (proj2 (classify_icd10pcs
    (classifier_example "ICD10PCS" "02100Z9" {[ "02100Z9"%string := "CBGB"%string ]} ∅)
    1 "02100Z9" [] "CBGB" eq_refl eq_refl) _) eq_refl).
  rewrite !elem_of_cons. right. by left.
Defined.


(** X6. The codes that [is_obstetric_anesthesia] and
    [is_open_cardiac_anesthesia_cpt] accept all have the form of an
    anaesthesia CPT code, no code is accepted by both, and none is given a
    cardiac surgical subclass. *)
Theorem anesthesia_codes (cpt_code : string) :
  is_obstetric_anesthesia cpt_code = true
  ∨ is_open_cardiac_anesthesia_cpt cpt_code = true →
  matches_anes_pattern cpt_code = true
  ∧ cardiac_procedure_type cpt_code = 0
  ∧ ¬ (is_obstetric_anesthesia cpt_code = true
       ∧ is_open_cardiac_anesthesia_cpt cpt_code = true).
Proof.
  unfold is_obstetric_anesthesia, is_open_cardiac_anesthesia_cpt.
  intros [H|H]; case_bool_decide as Hin; try discriminate H; clear H;
    rewrite !elem_of_cons, elem_of_nil in Hin;
    repeat destruct Hin as [->|Hin]; try done;
    (split; [reflexivity|split; [reflexivity|by intros [? ?]]]).
Qed.

Lemma anesthesia_codes_witness :
  matches_anes_pattern "00562" = true
  ∧ cardiac_procedure_type "00562" = 0
  ∧ ¬ (is_obstetric_anesthesia "00562" = true
       ∧ is_open_cardiac_anesthesia_cpt "00562" = true).
Proof. apply anesthesia_codes. right. reflexivity. Defined.

(** ** Creatinine normaliser and baseline *)

Section NormaliserMore.
#[local] Open Scope R_scope.

Lemma max_surviving_unique df v w : max_surviving df v → max_surviving df w → v = w.
Proof.
  intros [(r1 & Hr1 & Hs1) Hmax1] [(r2 & Hr2 & Hs2) Hmax2].
  pose proof (Hmax1 r2 w Hr2 Hs2). pose proof (Hmax2 r1 v Hr1 Hs1). lra.
Qed.

Lemma max_creatinine_of_max_surviving df v :
  max_surviving df v → max_creatinine_of df = v.
Proof.
  intros Hv. destruct (max_creatinine_of_spec df) as [[_ Hnone]|Hmax].
  - destruct Hv as [(r & Hr & Hs) _]. by destruct (Hnone r v).
  - by eapply max_surviving_unique.
Qed.

Lemma max_creatinine_of_none df :
  (∀ row c, row ∈ df → ¬ survives row c) → max_creatinine_of df = -1.
Proof.
  intros Hnone. destruct (max_creatinine_of_spec df) as [[? _]|[(r & Hr & Hs) _]]; [done|].
  by destruct (Hnone r (max_creatinine_of df) Hr).
Qed.

Lemma get_highest_preop_creatinine_Some self proc_id b :
  get_highest_preop_creatinine self proc_id = Some b
  ↔ max_surviving (query_preop (dataset self) proc_id) b.
Proof.
  unfold get_highest_preop_creatinine. split.
  - case_match; [done|]. destruct (Py.lt _ 0.0) eqn:E; [done|]. intros [= <-].
    apply max_creatinine_of_nonneg. rewrite <- E. f_equal. lra.
  - intros Hmax. pose proof (max_surviving_range _ _ Hmax) as Hrange.
    rewrite (max_creatinine_of_max_surviving _ _ Hmax).
    destruct Hmax as [(r & Hr & _) _].
    destruct (query_preop (dataset self) proc_id); [inversion Hr|]. simpl.
    by real_cmp.
Qed.

Lemma get_highest_preop_creatinine_None self proc_id :
  get_highest_preop_creatinine self proc_id = None
  ↔ ∀ row c, row ∈ query_preop (dataset self) proc_id → ¬ survives row c.
Proof.
  split.
  - intros Hnone row c Hin Hs.
    destruct (max_creatinine_of_spec (query_preop (dataset self) proc_id))
      as [[_ Hno]|Hmax]; [by eapply Hno|].
    apply get_highest_preop_creatinine_Some in Hmax. congruence.
  - intros Hno. unfold get_highest_preop_creatinine. case_match; [done|].
    rewrite (max_creatinine_of_none _ Hno). by real_cmp.
Qed.

End NormaliserMore.

(** X7. The baseline is the largest surviving normalised value of the
    60-day pre-operative window, and it is absent exactly when no reading
    of that window survives; a baseline lies in [0.2, 25). *)
Theorem baseline_is_max_surviving (self : AKITool) (proc_id : Z) :
  (∀ b, get_highest_preop_creatinine self proc_id = Some b
        ↔ max_surviving (query_preop (dataset self) proc_id) b)
  ∧ (get_highest_preop_creatinine self proc_id = None
     ↔ ∀ row c, row ∈ query_preop (dataset self) proc_id → ¬ survives row c)
  ∧ ∀ b, get_highest_preop_creatinine self proc_id = Some b → (0.2 <= b < 25)%R.
Proof.
  split; [intros b; apply get_highest_preop_creatinine_Some|].
  split; [apply get_highest_preop_creatinine_None|].
  intros b Hb%get_highest_preop_creatinine_Some. by eapply max_surviving_range.
Qed.

(** X8. The loop depends only on the surviving values: two frames with the
    same surviving values, in any order and with any discarded rows among
    them, give the same running maximum. *)
Theorem max_creatinine_of_same_survivors (df1 df2 : list creatinine_row) :
  (∀ c, (∃ row, row ∈ df1 ∧ survives row c) ↔ (∃ row, row ∈ df2 ∧ survives row c)) →
  max_creatinine_of df1 = max_creatinine_of df2.
Proof.
  intros Hsame.
  destruct (max_creatinine_of_spec df1) as [[-> Hnone]|Hmax].
  - symmetry. apply max_creatinine_of_none. intros row c Hin Hs.
    destruct (proj2 (Hsame c)) as (r & Hr & Hs'); [by exists row|].
    by destruct (Hnone r c).
  - symmetry. apply max_creatinine_of_max_surviving.
    destruct Hmax as [Hex Hle]. split; [by apply Hsame|].
    intros row c Hin Hs. destruct (proj2 (Hsame c)) as (r & Hr & Hs'); [by exists row|].
    by eapply Hle.
Qed.

Lemma max_creatinine_of_same_survivors_witness :
  max_creatinine_of mixed_frame = max_creatinine_of kept_frame.
Proof.
  apply max_creatinine_of_same_survivors. intros c.
  unfold mixed_frame, kept_frame. split.
  - intros (row & Hin & Hs). exists (example_row 0 1.0 "mg/dL" 40 0 None).
    split; [left|].
    rewrite !elem_of_cons, elem_of_nil in Hin.
    destruct Hin as [->|[->|[->|[]]]]; [|done|].
    + destruct Hs as [[= <-] Hr]. lra.
    + destruct Hs as [[=] _].
  - intros (row & Hin%list_elem_of_singleton & Hs). subst row.
    exists (example_row 0 1.0 "mg/dL" 40 0 None). split; [|done].
    right. left.
Defined.


(** ** eGFR *)

Section EgfrMore.
#[local] Open Scope R_scope.

Lemma ln_le x y : 0 < x → x <= y → ln x <= ln y.
Proof.
  intros Hx [Hlt| ->]; [|lra]. left. by apply ln_increasing.
Qed.

Lemma exp_le x y : x <= y → exp x <= exp y.
Proof. intros [Hlt| ->]; [|lra]. left. by apply exp_increasing. Qed.

(** A base of at least 1 under an exponent that is not positive. *)
Lemma pow_le_one x y : 1 <= x → y <= 0 → Py.pow x y <= 1.
Proof.
  intros Hx Hy. unfold Py.pow, Rpower. rewrite <- exp_0. apply exp_le.
  assert (0 <= ln x) by (rewrite <- ln_1; apply ln_le; lra). nra.
Qed.

(** A base in [lo, 1] under an exponent in [-1/2, 0]. *)
Lemma pow_small_base x alpha lo :
  0 < lo → lo <= x → x <= 1 → -1 / 2 <= alpha <= 0 → Py.pow x alpha <= sqrt (/ lo).
Proof.
  intros Hlo Hx H1 Halpha. unfold Py.pow.
  assert (0 < / lo) by (by apply Rinv_0_lt_compat).
  rewrite <- Rpower_sqrt by done. unfold Rpower. apply exp_le.
  rewrite ln_Rinv by done.
  assert (ln lo <= ln x) by (apply ln_le; lra).
  assert (ln x <= 0) by (rewrite <- ln_1; apply ln_le; lra).
  nra.
Qed.

Lemma pow_age (age : Z) : (18 ≤ age)%Z → Py.pow 0.9938 (IZR age) <= 0.9938 ^ 18.
Proof.
  intros Hage. rewrite <- (pow_nat 0.9938 18) by lra. unfold Py.pow, Rpower.
  apply exp_le.
  assert (ln 0.9938 < 0) by (rewrite <- ln_1; apply ln_increasing; lra).
  assert (IZR (Z.of_nat 18) <= IZR age) by (apply IZR_le; lia). nra.
Qed.

(** A bound on the equation for any constants of the right signs. *)
Lemma ckd_epi_bound kappa alpha m cr (age : Z) s :
  0 < kappa → 0.2 <= cr → -1 / 2 <= alpha <= 0 → 0 < m → (18 ≤ age)%Z →
  1 <= s → kappa / 0.2 < s * s →
  0 < ckd_epi kappa alpha m cr age <= 142 * s * 0.8941 * m.
Proof.
  intros Hk Hcr Ha Hm Hage Hs Hsq. unfold ckd_epi.
  assert (0.2 / kappa <= cr / kappa) as Hx.
  { unfold Rdiv. apply Rmult_le_compat_r; [|lra]. left. by apply Rinv_0_lt_compat. }
  assert (0 < 0.2 / kappa) as Hlo by (apply Rdiv_lt_0_compat; lra).
  pose proof (pow_pos (Rmin (cr / kappa) 1) alpha) as Ha0.
  pose proof (pow_pos (Rmax (cr / kappa) 1) (-1.2)) as Hb0.
  pose proof (pow_pos 0.9938 (IZR age)) as Hc0.
  assert (Py.pow (Rmin (cr / kappa) 1) alpha <= s) as Ha1.
  { destruct (Rle_dec (0.2 / kappa) 1) as [Hle|Hgt].
    - etrans; [apply (pow_small_base _ _ (0.2 / kappa)); try done|].
      + apply Rmin_glb; lra.
      + apply Rmin_r.
      + replace (/ (0.2 / kappa)) with (kappa / 0.2) by (field; lra).
        rewrite <- (sqrt_square s) by lra. left. apply sqrt_lt_1_alt.
        split; [|done]. left. apply Rdiv_lt_0_compat; lra.
    - rewrite Rmin_right by lra. by rewrite pow_one. }
  assert (Py.pow (Rmax (cr / kappa) 1) (-1.2) <= 1) as Hb1.
  { apply pow_le_one; [apply Rmax_r|lra]. }
  pose proof (pow_age age Hage) as Hc1.
  assert (0.9938 ^ 18 <= 0.8941) as Hc2 by lra.
  set (a := Py.pow (Rmin (cr / kappa) 1) alpha) in *.
  set (b := Py.pow (Rmax (cr / kappa) 1) (-1.2)) in *.
  set (c := Py.pow 0.9938 (IZR age)) in *.
  assert (0 < a * b <= s) by nra.
  assert (0 < a * b * c <= s * 0.8941) by nra.
  split; [nra|].
  replace (142 * a * b * c * m) with (142 * m * (a * b * c)) by ring.
  replace (142 * s * 0.8941 * m) with (142 * m * (s * 0.8941)) by ring.
  apply Rmult_le_compat_l; [nra|lra].
Qed.

(** The adult equation of the program stays inside the range check. *)
Lemma ckd_epi_adult_range (is_male : bool) cr (age : Z) :
  0.2 <= cr → (18 ≤ age)%Z →
  0 < ckd_epi (if is_male then 0.9 else 0.7) (if is_male then -0.302 else -0.241)
        (if is_male then 1.0 else 1.01) cr age < 270.
Proof.
  intros Hcr Hage. destruct is_male.
  - destruct (ckd_epi_bound 0.9 (-0.302) 1.0 cr age 2.1214) as [H1 H2];
      try done; lra.
  - destruct (ckd_epi_bound 0.7 (-0.241) 1.01 cr age 1.8709) as [H1 H2];
      try done; lra.
Qed.

Lemma round_le x (n : Z) : x < IZR n → (Py.round x ≤ n)%Z.
Proof.
  intros Hx. pose proof (round_floor_bounds x) as [_ Hb].
  pose proof (Zfloor_bound x) as [Hf _].
  assert (Zfloor x < n)%Z by (apply lt_IZR; lra). lia.
Qed.

Lemma round_nonneg x : 0 <= x → (0 ≤ Py.round x)%Z.
Proof.
  intros Hx. pose proof (round_floor_bounds x) as [Hb _].
  assert (0 ≤ Zfloor x)%Z by (apply Zfloor_lub; simpl; lra). lia.
Qed.

(** The frame behind a running maximum that is not negative has a first
    row. *)
Lemma max_creatinine_of_nonneg_cons df :
  Py.lt (max_creatinine_of df) 0 = false → ∃ row0 rest, df = row0 :: rest.
Proof.
  destruct df as [|row0 rest]; [|by eauto].
  unfold max_creatinine_of. simpl. intros H%lt_false. lra.
Qed.

End EgfrMore.

(** X10. [get_preop_egfr] never raises: a running maximum that is not
    negative comes from a frame with a first row, so reading the first
    row's age cannot fail. Without a baseline it answers [None]. *)
Theorem get_preop_egfr_never_raises (self : AKITool) (proc_id : Z) :
  (∃ r, get_preop_egfr self proc_id = Ok r)
  ∧ (get_highest_preop_creatinine self proc_id = None →
     get_preop_egfr self proc_id = Ok None).
Proof.
  unfold get_preop_egfr. split.
  - destruct (Py.lt _ 0) eqn:E; [by eexists|].
    destruct (max_creatinine_of_nonneg_cons _ E) as (row0 & rest & ->). simpl.
    case_match; by eexists.
  - intros Hnone.
    pose proof (proj1 (get_highest_preop_creatinine_None _ _) Hnone) as Hno.
    rewrite (max_creatinine_of_none _ Hno). by real_cmp.
Qed.

(** X11. For an adult first row (age 18 or more) with a surviving
    creatinine, [get_preop_egfr] always returns a number: the estimate is
    positive and below 270, so the range check never discards it and the
    number returned lies between 0 and 270. *)
Theorem get_preop_egfr_adult_returns (self : AKITool) (proc_id : Z)
    (row0 : creatinine_row) (rest : list creatinine_row) :
  query_preop (dataset self) proc_id = row0 :: rest →
  Py.lt (max_creatinine_of (row0 :: rest)) 0 = false →
  18 ≤ age row0 →
  ∃ v, get_preop_egfr self proc_id = Ok (Some v) ∧ 0 ≤ v ≤ 270.
Proof.
  intros Hq Hm Hage.
  rewrite (get_preop_egfr_adult self proc_id row0 rest Hq Hm Hage). simpl.
  pose proof (max_surviving_range _ _ (max_creatinine_of_nonneg _ Hm)) as [Hcr _].
  pose proof (ckd_epi_adult_range (gender_concept_id row0 =? MALE_CONCEPT_ID)
                (max_creatinine_of (row0 :: rest)) (age row0) Hcr Hage) as [H0 H270].
  eexists. split.
  - rewrite checked_round_inside by lra. reflexivity.
  - split; [apply round_nonneg; lra|by apply round_le].
Qed.

Lemma get_preop_egfr_adult_returns_witness :
  ∃ v, get_preop_egfr woman19_example 1 = Ok (Some v) ∧ 0 ≤ v ≤ 270.
Proof.
  apply (get_preop_egfr_adult_returns woman19_example 1
           (example_row 0 0.7 "mg/dL" 19 0 None) [] woman19_example_query).
  - rewrite woman19_example_max. by real_cmp.
  - simpl. lia.
Defined.



(** ** AKI staging *)

Section StagingMore.
#[local] Open Scope R_scope.

Lemma get_preop_egfr_Ok self proc_id : ∃ r, get_preop_egfr self proc_id = Ok r.
Proof.
  unfold get_preop_egfr. destruct (Py.lt _ 0) eqn:E; [by eexists|].
  destruct (max_creatinine_of_nonneg_cons _ E) as (row0 & rest & ->). simpl.
  case_match; by eexists.
Qed.

Lemma postop_peak_None_iff self proc_id n :
  postop_peak self proc_id n = None
  ↔ ∀ row c, row ∈ query_postop_creatinine (dataset self) proc_id n → ¬ survives row c.
Proof.
  split.
  - intros H row c. by apply postop_peak_None.
  - intros Hno. unfold postop_peak. rewrite (max_creatinine_of_none _ Hno).
    by real_cmp.
Qed.

Lemma postop_peak_le self proc_id v2 v7 :
  postop_peak self proc_id 2 = Some v2 → postop_peak self proc_id 7 = Some v7 →
  v2 <= v7.
Proof.
  intros [(row & Hin & Hs) _]%postop_peak_Some [_ Hle]%postop_peak_Some.
  apply (Hle row v2); [|done]. by apply query_postop_subset.
Qed.

(** The stage read off the comparisons, for a baseline that is not
    negative. *)
Lemma stage_of_spec b pc w :
  0 <= b →
  let s := stage_of b pc w in
  (s = 3%Z ∧ 3.0 * b <= w)
  ∨ (s = 2%Z ∧ 2.0 * b <= w < 3.0 * b)
  ∨ (s = 1%Z ∧ 1.5 * b <= w < 2.0 * b)
  ∨ (s = 1%Z ∧ w < 1.5 * b ∧ ∃ p2, within_2_days pc = Some p2 ∧ 0.3 + b <= p2)
  ∨ (s = 0%Z ∧ w < 1.5 * b ∧ ∀ p2, within_2_days pc = Some p2 → p2 < 0.3 + b).
Proof.
  intros Hb. unfold stage_of.
  destruct (Py.ge w (3.0 * b)) eqn:E3.
  { apply ge_true in E3. by left. }
  apply ge_false in E3.
  destruct (Py.ge w (2.0 * b)) eqn:E2.
  { apply ge_true in E2. right; left. split; [done|lra]. }
  apply ge_false in E2.
  destruct (Py.ge w (1.5 * b)) eqn:E1.
  { apply ge_true in E1. right; right; left. split; [done|lra]. }
  apply ge_false in E1.
  destruct (within_2_days pc) as [p2|]; [destruct (Py.ge p2 (0.3 + b)) eqn:E0|].
  - apply ge_true in E0. right; right; right; left. eauto.
  - apply ge_false in E0. do 4 right. split; [done|]. split; [done|].
    by intros ? [= <-].
  - do 4 right. split; [done|]. split; [done|]. by intros ? [=].
Qed.

End StagingMore.

(** X13. [acute_kidney_injury] returns one of the eight codes -4 to 3; the
    only exception it can raise is the [IndexError] of the person lookup of
    the close-surgery detector, and it raises nothing when that lookup has a
    row. *)
Theorem acute_kidney_injury_outcomes (self : AKITool) (proc_id : Z) :
  (∀ z, acute_kidney_injury self proc_id = Ok z → -4 ≤ z ≤ 3)
  ∧ (∀ e, acute_kidney_injury self proc_id = Raise e →
          e = IndexError ∧ read_person_id (dataset self) proc_id = [])
  ∧ (read_person_id (dataset self) proc_id ≠ [] →
     ∃ z, acute_kidney_injury self proc_id = Ok z).
Proof.
  assert ((∃ z, acute_kidney_injury self proc_id = Ok z ∧ -4 ≤ z ≤ 3)
          ∨ (acute_kidney_injury self proc_id = Raise IndexError
             ∧ read_person_id (dataset self) proc_id = [])) as Hcases.
  { unfold acute_kidney_injury.
    destruct (get_highest_preop_creatinine self proc_id) as [b|];
      [|left; eexists; split; [done|lia]].
    destruct (get_preop_egfr_Ok self proc_id) as [egfr ->]. simpl.
    case_match; [left; eexists; split; [done|lia]|].
    destruct (postop_peak self proc_id 7) as [p7|];
      [|left; eexists; split; [done|lia]].
    unfold has_close_surgery_without_creatinine_between_surgeries.
    destruct (read_person_id (dataset self) proc_id) as [|person others]; simpl;
      [by right|].
    left. destruct (close_surgery _ _ _); eexists; (split; [reflexivity|]); [lia|].
    match goal with |- _ ≤ stage_of ?b ?p ?w ≤ _ =>
      pose proof (stage_of_range b p w) end. lia. }
  destruct Hcases as [(z & -> & Hz)|[-> ->]].
  - split; [by intros ? [= <-]|]. split; [done|]. intros _. by exists z.
  - split; [done|]. split; [by intros ? [= <-]|done].
Qed.

(** X14. The three data sentinels in terms of the readings. The result is -3
    exactly when no reading of the pre-operative window survives. It is -2
    exactly when a baseline exists and the pre-operative eGFR is a number
    below 15. It is -1 exactly when a baseline exists, the eGFR is unknown
    or at least 15, and no reading of the 7-day window survives. *)
Theorem acute_kidney_injury_sentinels (self : AKITool) (proc_id : Z) :
  (acute_kidney_injury self proc_id = Ok (-3)
   ↔ ∀ row c, row ∈ query_preop (dataset self) proc_id → ¬ survives row c)
  ∧ (acute_kidney_injury self proc_id = Ok (-2)
     ↔ (∃ b, get_highest_preop_creatinine self proc_id = Some b)
       ∧ ∃ egfr, get_preop_egfr self proc_id = Ok (Some egfr) ∧ egfr < 15)
  ∧ (acute_kidney_injury self proc_id = Ok (-1)
     ↔ (∃ b, get_highest_preop_creatinine self proc_id = Some b)
       ∧ (∀ egfr, get_preop_egfr self proc_id = Ok (Some egfr) → 15 ≤ egfr)
       ∧ ∀ row c, row ∈ query_postop_creatinine (dataset self) proc_id 7 →
                  ¬ survives row c).
Proof.
  rewrite <- get_highest_preop_creatinine_None, <- postop_peak_None_iff.
  unfold acute_kidney_injury.
  destruct (get_highest_preop_creatinine self proc_id) as [b|].
  2:{ split; [done|]. split; (split; [done|by intros [[? [=]] _]]). }
  destruct (get_preop_egfr_Ok self proc_id) as [egfr ->]. simpl.
  assert (∀ z : Z, z < 0 → ∀ b' pc w, Ok (stage_of b' pc w) ≠ Ok z) as Hstage.
  { intros z Hz b' pc w [= H]. pose proof (stage_of_range b' pc w). lia. }
  destruct egfr as [e|]; [destruct (e <? 15) eqn:E15|].
  - apply Z.ltb_lt in E15. split; [done|]. split.
    + split; [intros _|done]. split; [by eexists|]. exists e. done.
    + split; [done|]. intros (_ & Hge & _). specialize (Hge e eq_refl). lia.
  - apply Z.ltb_ge in E15.
    destruct (postop_peak self proc_id 7) as [p7|]; simpl.
    + assert (∀ z : Z, z < 0 → z ≠ -4 →
                (has_close_surgery_without_creatinine_between_surgeries self proc_id
                 ≫= λ has_close_surgery : bool,
                      if has_close_surgery then Ok (-4)
                      else Ok (stage_of b
                                 {| within_2_days := postop_peak self proc_id 2;
                                    within_7_days := Some p7 |} p7)) ≠ Ok z) as Hrest.
      { intros z Hz Hz4. step_binds; [|done]. case_match; [congruence|by apply Hstage]. }
      split; [split; [by intros ?%Hrest|done]|].
      split; (split; [by intros ?%Hrest|]).
      * intros (_ & e' & [= <-] & ?). lia.
      * by intros (_ & _ & [=]).
    + split; [done|]. split.
      * split; [done|]. intros (_ & e' & [= <-] & ?). lia.
      * split; [intros _|done]. split; [by eexists|]. split; [|done].
        by intros e' [= <-].
  - destruct (postop_peak self proc_id 7) as [p7|]; simpl.
    + assert (∀ z : Z, z < 0 → z ≠ -4 →
                (has_close_surgery_without_creatinine_between_surgeries self proc_id
                 ≫= λ has_close_surgery : bool,
                      if has_close_surgery then Ok (-4)
                      else Ok (stage_of b
                                 {| within_2_days := postop_peak self proc_id 2;
                                    within_7_days := Some p7 |} p7)) ≠ Ok z) as Hrest.
      { intros z Hz Hz4. step_binds; [|done]. case_match; [congruence|by apply Hstage]. }
      split; [split; [by intros ?%Hrest|done]|].
      split; (split; [by intros ?%Hrest|]).
      * by intros (_ & e' & [=] & _).
      * by intros (_ & _ & [=]).
    + split; [done|]. split.
      * split; [done|]. by intros (_ & e' & [=] & _).
      * split; [intros _|done]. split; [by eexists|]. done.
Qed.

(** X15. A positive stage needs a rise. When [acute_kidney_injury] returns
    1, 2 or 3, the 7-day peak is at least 1.5 times the baseline, or it is
    at least the baseline plus 0.3 mg/dL with a baseline above 0.6 mg/dL; in
    both cases it exceeds the baseline by at least 0.1 mg/dL. *)
Theorem positive_stage_needs_rise (self : AKITool) (proc_id : Z) (s : Z) :
  acute_kidney_injury self proc_id = Ok s →
  1 ≤ s →
  ∃ b p7,
    get_highest_preop_creatinine self proc_id = Some b
    ∧ within_7_days (get_postop_creatinine self proc_id) = Some p7
    ∧ ((1.5 * b <= p7)%R ∨ (b + 0.3 <= p7 ∧ 0.6 < b)%R)
    ∧ (b + 0.1 <= p7)%R.
Proof.
  unfold acute_kidney_injury.
  destruct (get_highest_preop_creatinine self proc_id) as [b|] eqn:Hb.
  2:{ intros [= <-]. lia. }
  destruct (get_preop_egfr_Ok self proc_id) as [egfr ->]. simpl.
  case_match; [intros [= <-]; lia|].
  destruct (postop_peak self proc_id 7) as [p7|] eqn:H7; [|intros [= <-]; lia].
  destruct (has_close_surgery_without_creatinine_between_surgeries self proc_id)
    as [[|]|]; simpl; [intros [= <-]; lia| |done].
  intros [= <-] Hs. exists b, p7. split; [done|]. split; [done|].
  apply get_highest_preop_creatinine_range in Hb.
  match type of Hs with
  | _ ≤ stage_of ?b0 ?pc ?w =>
      destruct (stage_of_spec b0 pc w ltac:(lra))
        as [[_ Hw]|[[_ Hw]|[[_ Hw]|[(_ & Hw & p2 & Hp2 & Hrise)|[Hzero _]]]]]
  end;
    try (split; [left|]; lra).
  - simpl in Hp2. pose proof (postop_peak_le _ _ _ _ Hp2 H7). split; [right|]; lra.
  - lia.
Qed.

Lemma positive_stage_needs_rise_witness :
  ∃ b p7,
    get_highest_preop_creatinine stage1_example 1 = Some b
    ∧ within_7_days (get_postop_creatinine stage1_example 1) = Some p7
    ∧ ((1.5 * b <= p7)%R ∨ (b + 0.3 <= p7 ∧ 0.6 < b)%R)
    ∧ (b + 0.1 <= p7)%R.
Proof.
  apply (positive_stage_needs_rise stage1_example 1 1); [|lia].
  unfold acute_kidney_injury.
  rewrite stage1_example_baseline, stage1_example_egfr, stage1_example_postop.
  simpl. unfold stage_of. simpl. by real_cmp.
Defined.

(** X16. The stage is monotone. With a baseline that is not negative, a
    lower baseline, a higher 7-day peak and a higher (or newly present)
    2-day peak never lower the stage. *)
Theorem stage_of_monotone (b b' : R) (pc pc' : PostopCreatinine) (w w' : R) :
  (0 <= b' <= b)%R →
  (w <= w')%R →
  peak_le (within_2_days pc) (within_2_days pc') →
  stage_of b pc w ≤ stage_of b' pc' w'.
Proof.
  intros Hb Hw Hp.
  destruct (stage_of_spec b pc w ltac:(lra))
    as [[-> H]|[[-> H]|[[-> H]|[(-> & H & p2 & Hp2 & Hrise)|[-> _]]]]];
  destruct (stage_of_spec b' pc' w' ltac:(lra))
    as [[-> H']|[[-> H']|[[-> H']|[(-> & H' & p2' & Hp2' & Hrise')|(-> & H' & Hno)]]]];
  try lia; try lra.
  rewrite Hp2 in Hp. destruct (within_2_days pc') as [q|] eqn:Hq; [|done].
  simpl in Hp. specialize (Hno q eq_refl). lra.
Qed.

Lemma stage_of_monotone_witness :
  stage_of 1.0 {| within_2_days := None; within_7_days := Some 1.4%R |} 1.4
  ≤ stage_of 1.0 {| within_2_days := Some 1.3%R; within_7_days := Some 2.0%R |} 2.0.
Proof.
  apply stage_of_monotone; [lra|lra|exact I].
Defined.

(** X17. No reading counts twice: a row of the pre-operative window is in
    no post-operative window, whatever its length, and a reading taken at
    the very time of the procedure is pre-operative. *)
Theorem windows_disjoint (ds : Dataset) (proc_id : Z) (row : creatinine_row) :
  row ∈ read_creatinine ds proc_id →
  (row ∈ query_preop ds proc_id →
   ∀ within_n_days, row ∉ query_postop_creatinine ds proc_id within_n_days)
  ∧ (measurement_datetime row = procedure_datetime row → row ∈ query_preop ds proc_id).
Proof.
  intros Hin. unfold query_preop, query_postop_creatinine. split.
  - intros [Hpre _]%list_elem_of_filter n [Hpost _]%list_elem_of_filter.
    unfold in_preop_window, in_postop_window in *. lia.
  - intros Heq. apply list_elem_of_filter. split; [|done].
    unfold in_preop_window, DAY. lia.
Qed.

Lemma windows_disjoint_witness :
  example_row 0 1.0 "mg/dL" 10 0 None ∈ query_preop (dataset stage3_example) 1
  ∧ ∀ n, example_row 0 1.0 "mg/dL" 10 0 None
           ∉ query_postop_creatinine (dataset stage3_example) 1 n.
Proof.
  assert (example_row 0 1.0 "mg/dL" 10 0 None
            ∈ read_creatinine (dataset stage3_example) 1) as Hin by left.
  destruct (windows_disjoint (dataset stage3_example) 1 _ Hin) as [H1 H2].
  split; [by apply H2|]. apply H1. by apply H2.
Defined.

(** ** CPT range expansion: what a row adds *)

Section Expansion.

Lemma foldl_insert_lookup (f : Z → string) (label : Z) (l : list Z)
    (d : gmap string Z) (k : string) :
  foldl (λ d n, <[ f n := label ]> d) d l !! k
  = if decide (k ∈ f <$> l) then Some label else d !! k.
Proof.
  revert d. induction l as [|n l IH]; intros d.
  { rewrite decide_False; [done|]. apply not_elem_of_nil. }
  cbn [foldl]. rewrite IH. rewrite fmap_cons.
  destruct (decide (k ∈ f <$> l)) as [Hin|Hnot].
  - rewrite decide_True; [done|by right].
  - destruct (decide (k = f n)) as [->|Hne].
    + rewrite lookup_insert_eq. rewrite decide_True; [done|by left].
    + rewrite lookup_insert_ne by done. rewrite decide_False; [done|].
      by intros [?|?]%elem_of_cons.
Qed.

Lemma elem_of_range (a b n : Z) : n ∈ Py.range a b ↔ a ≤ n < b.
Proof.
  unfold Py.range. rewrite list_elem_of_fmap. split.
  - intros (i & -> & Hi%elem_of_seq). lia.
  - intros Hn. exists (Z.to_nat (n - a)). split; [lia|]. apply elem_of_seq. lia.
Qed.

(** The result of a row that is not rejected. *)
Lemma expand_cpt_row_Ok d row d' :
  expand_cpt_row d row = Ok d' →
  ∃ code_from code_to code_from_num code_to_num,
    Py.split "-" (cpt_code_range row) = [code_from; code_to]
    ∧ Py.int (Py.slice code_from (fst (numeric_body_bounds code_from))
                (snd (numeric_body_bounds code_from))) = Ok code_from_num
    ∧ Py.int (Py.slice code_to (fst (numeric_body_bounds code_from))
                (snd (numeric_body_bounds code_from))) = Ok code_to_num
    ∧ d' = foldl (λ d n, <[ cpt_key code_from n := ccs_numerical_label row ]> d) d
             (Py.range code_from_num (code_to_num + 1)).
Proof.
  unfold expand_cpt_row.
  destruct (Py.split "-" (cpt_code_range row)) as [|code_from [|code_to [|]]]; try done.
  intros H. exists code_from, code_to. unfold cpt_key, numeric_body_bounds.
  revert H.
  destruct (Py.search_leading_upper code_from), (Py.search_trailing_upper code_from);
    cbn [fst snd].
  all: match goal with |- context [mbind _ (Py.int ?s)] =>
         destruct (Py.int s) as [n1|e1] eqn:E1 end; simpl; try done.
  all: match goal with |- context [mbind _ (Py.int ?s)] =>
         destruct (Py.int s) as [n2|e2] eqn:E2 end; simpl; try done.
  all: intros [= <-]; exists n1, n2.
  all: by repeat split.
Qed.

End Expansion.

(** X18. What an accepted row adds to the table. With [a] and [b] the
    numbers read from the two ends, every key written for a number from [a]
    to [b], both included, maps to the row's label afterwards, and every
    other key keeps what it had before; when [b < a] the table is
    unchanged. *)
Theorem expand_cpt_row_lookup (d d' : gmap string Z) (row : cpt_ccs_row) :
  expand_cpt_row d row = Ok d' →
  ∃ code_from code_to a b,
    Py.split "-" (cpt_code_range row) = [code_from; code_to]
    ∧ Py.int (Py.slice code_from (fst (numeric_body_bounds code_from))
                (snd (numeric_body_bounds code_from))) = Ok a
    ∧ Py.int (Py.slice code_to (fst (numeric_body_bounds code_from))
                (snd (numeric_body_bounds code_from))) = Ok b
    ∧ (∀ n, a ≤ n ≤ b → d' !! cpt_key code_from n = Some (ccs_numerical_label row))
    ∧ (∀ k, (∀ n, a ≤ n ≤ b → k ≠ cpt_key code_from n) → d' !! k = d !! k)
    ∧ (b < a → d' = d).
Proof.
  intros (code_from & code_to & a & b & Hsplit & Ha & Hb & ->)%expand_cpt_row_Ok.
  exists code_from, code_to, a, b. repeat split; try done.
  - intros n Hn. rewrite foldl_insert_lookup. rewrite decide_True; [done|].
    apply list_elem_of_fmap. exists n. split; [done|]. apply elem_of_range. lia.
  - intros k Hk. rewrite foldl_insert_lookup. rewrite decide_False; [done|].
    intros (n & -> & Hn%elem_of_range)%list_elem_of_fmap. apply (Hk n); [lia|done].
  - intros Hlt. unfold Py.range. by rewrite Z2Nat.nonpos by lia.
Qed.

Lemma expand_cpt_row_lookup_witness :
  ∃ code_from code_to a b,
    Py.split "-" "G0100-G0102" = [code_from; code_to]
    ∧ Py.int (Py.slice code_from (fst (numeric_body_bounds code_from))
                (snd (numeric_body_bounds code_from))) = Ok a
    ∧ Py.int (Py.slice code_to (fst (numeric_body_bounds code_from))
                (snd (numeric_body_bounds code_from))) = Ok b
    ∧ (∀ n, a ≤ n ≤ b →
         (<[ "G0102"%string := 7 ]>
            (<[ "G0101"%string := 7 ]> (<[ "G0100"%string := 7 ]> (∅ : gmap string Z))))
           !! cpt_key code_from n = Some 7)
    ∧ (∀ k, (∀ n, a ≤ n ≤ b → k ≠ cpt_key code_from n) →
         (<[ "G0102"%string := 7 ]>
            (<[ "G0101"%string := 7 ]> (<[ "G0100"%string := 7 ]> (∅ : gmap string Z))))
           !! k = (∅ : gmap string Z) !! k)
    ∧ (b < a →
       <[ "G0102"%string := 7 ]>
         (<[ "G0101"%string := 7 ]> (<[ "G0100"%string := 7 ]> (∅ : gmap string Z)))
       = ∅).
Proof.
  apply (expand_cpt_row_lookup ∅ _
           {| cpt_code_range := "G0100-G0102"; ccs_numerical_label := 7 |}).
  vm_compute. reflexivity.
Defined.

(** ** Decimal digits: reading and zero-padded writing *)

Section Digits.
Implicit Types (c : ascii) (ds cs : list ascii).

Lemma is_digit_spec c :
  Py.is_digit c = true →
  0 ≤ Py.digit_value c ≤ 9
  ∧ ascii_of_N (48 + Z.to_N (Py.digit_value c)) = c
  ∧ Py.is_upper c = false ∧ Py.is_space c = false
  ∧ (Py.digit_value c = 0 ↔ c = "0"%char).
Proof.
  destruct c as [[] [] [] [] [] [] [] []]; intros H; try discriminate H;
    vm_compute; repeat split; congruence.
Qed.

Lemma int_of_digits_snoc ds c :
  Py.int_of_digits (ds ++ [c]) = 10 * Py.int_of_digits ds + Py.digit_value c.
Proof. unfold Py.int_of_digits. by rewrite fold_left_app. Qed.

Lemma int_of_digits_bounds ds :
  forallb Py.is_digit ds = true → 0 ≤ Py.int_of_digits ds < 10 ^ Z.of_nat (length ds).
Proof.
  induction ds as [|c ds IH] using rev_ind; [done|].
  rewrite forallb_app, andb_true_iff. simpl. rewrite andb_true_r.
  intros [Hds Hc]. specialize (IH Hds).
  destruct (is_digit_spec c Hc) as (Hv & _).
  rewrite int_of_digits_snoc, length_app. simpl.
  replace (Z.of_nat (length ds + 1)) with (Z.succ (Z.of_nat (length ds))) by lia.
  rewrite Z.pow_succ_r by lia. lia.
Qed.

(** A digit run that does not start with a zero denotes a positive
    number. *)
Lemma int_of_digits_pos c ds :
  forallb Py.is_digit (c :: ds) = true → c ≠ "0"%char → 1 ≤ Py.int_of_digits (c :: ds).
Proof.
  induction ds as [|x ds IH] using rev_ind.
  - simpl. rewrite andb_true_r. intros Hc Hne.
    destruct (is_digit_spec c Hc) as (Hv & _ & _ & _ & Hz).
    unfold Py.int_of_digits. simpl. destruct (decide (Py.digit_value c = 0)) as [H0|]; [|lia].
    by apply Hz in H0.
  - rewrite app_comm_cons, forallb_app, andb_true_iff. simpl forallb at 2.
    rewrite andb_true_r.
    intros [Hds Hx] Hne. specialize (IH Hds Hne).
    destruct (is_digit_spec x Hx) as (Hv & _).
    rewrite int_of_digits_snoc. lia.
Qed.

Lemma digits_fuel_step fuel (n : N) acc :
  Py.digits_fuel (S fuel) n acc
  = if (n <? 10)%N then ascii_of_N (48 + n mod 10) :: acc
    else Py.digits_fuel fuel (n / 10)%N (ascii_of_N (48 + n mod 10) :: acc).
Proof. reflexivity. Qed.

(** Writing the number of a digit run that does not start with a zero gives
    the run back. *)
Lemma digits_fuel_canonical c ds : ∀ acc,
  forallb Py.is_digit (c :: ds) = true → c ≠ "0"%char →
  Py.digits_fuel (S (length ds)) (Z.to_N (Py.int_of_digits (c :: ds))) acc
  = (c :: ds) ++ acc.
Proof.
  induction ds as [|x ds IH] using rev_ind; intros acc.
  - simpl forallb. rewrite andb_true_r. intros Hc Hne.
    destruct (is_digit_spec c Hc) as (Hv & Hasc & _).
    unfold Py.int_of_digits. simpl fold_left. rewrite Z.add_0_l.
    rewrite digits_fuel_step.
    assert (Z.to_N (Py.digit_value c) < 10)%N as Hlt by lia.
    rewrite (proj2 (N.ltb_lt _ _) Hlt). rewrite N.mod_small by done.
    by rewrite Hasc.
  - rewrite app_comm_cons, forallb_app, andb_true_iff. simpl forallb.
    rewrite andb_true_r. intros [Hds Hx] Hne.
    destruct (is_digit_spec x Hx) as (Hv & Hasc & _).
    pose proof (int_of_digits_pos c ds Hds Hne) as Hpos.
    rewrite int_of_digits_snoc, length_app. simpl length.
    replace (length ds + 1)%nat with (S (length ds)) by lia.
    rewrite digits_fuel_step.
    set (m := Py.int_of_digits (c :: ds)) in *.
    assert (Z.to_N (10 * m + Py.digit_value x)
            = (10 * Z.to_N m + Z.to_N (Py.digit_value x))%N) as -> by lia.
    assert ((10 * Z.to_N m + Z.to_N (Py.digit_value x)) mod 10
            = Z.to_N (Py.digit_value x))%N as ->.
    { symmetry. apply (N.mod_unique _ _ (Z.to_N m)); lia. }
    assert ((10 * Z.to_N m + Z.to_N (Py.digit_value x)) / 10 = Z.to_N m)%N as ->.
    { symmetry. apply (N.div_unique _ _ _ (Z.to_N (Py.digit_value x))); lia. }
    assert ((10 * Z.to_N m + Z.to_N (Py.digit_value x) <? 10)%N = false) as ->
      by (apply N.ltb_ge; lia).
    rewrite Hasc, IH by done. by rewrite <- !app_assoc.
Qed.

(** More fuel than needed changes nothing. *)
Lemma digits_fuel_enough f : ∀ f' (n : N) acc,
  (n < 10 ^ N.of_nat (S f))%N → (n < 10 ^ N.of_nat (S f'))%N →
  Py.digits_fuel (S f) n acc = Py.digits_fuel (S f') n acc.
Proof.
  induction f as [|f IH]; intros f' n acc Hf Hf'.
  - rewrite !digits_fuel_step. change (10 ^ N.of_nat 1)%N with 10%N in Hf.
    by rewrite (proj2 (N.ltb_lt _ _) Hf).
  - rewrite !digits_fuel_step. destruct (n <? 10)%N eqn:E; [done|].
    apply N.ltb_ge in E. destruct f' as [|f'].
    { change (10 ^ N.of_nat 1)%N with 10%N in Hf'. lia. }
    apply IH.
    + apply N.Div0.div_lt_upper_bound.
      rewrite <- N.pow_succ_r'. by rewrite <- Nat2N.inj_succ.
    + apply N.Div0.div_lt_upper_bound.
      rewrite <- N.pow_succ_r'. by rewrite <- Nat2N.inj_succ.
Qed.

Lemma digits_of_fuel (n : N) f :
  (n < 10 ^ N.of_nat (S f))%N → Py.digits_of n = Py.digits_fuel (S f) n [].
Proof.
  intros Hf. unfold Py.digits_of. apply digits_fuel_enough; [|done].
  destruct (decide (n = 0%N)) as [->|Hn]; [done|].
  pose proof (N.log2_spec n ltac:(lia)) as [_ Hlog].
  eapply N.lt_le_trans; [exact Hlog|].
  rewrite Nat2N.inj_succ, N2Nat.id.
  apply N.pow_le_mono_l. lia.
Qed.

Lemma int_of_digits_zeros k ds :
  Py.int_of_digits (repeat "0"%char k ++ ds) = Py.int_of_digits ds.
Proof.
  unfold Py.int_of_digits. rewrite fold_left_app.
  assert (fold_left (λ acc c, 10 * acc + Py.digit_value c) (repeat "0"%char k) 0 = 0)
    as ->; [|done].
  induction k as [|k IH]; [done|]. simpl. exact IH.
Qed.

(** A digit run is zeros followed by nothing or by a run that does not
    start with a zero. *)
Lemma leading_zeros ds :
  ∃ k t, ds = repeat "0"%char k ++ t
         ∧ match t with [] => True | c :: _ => c ≠ "0"%char end.
Proof.
  induction ds as [|c ds (k & t & -> & Ht)].
  - by exists 0%nat, [].
  - destruct (decide (c = "0"%char)) as [->|Hc].
    + by exists (S k), t.
    + by exists 0%nat, (c :: repeat "0"%char k ++ t).
Qed.

(** Zero-padded writing to the width of a digit run inverts its reading. *)
Lemma format_0d_int_of_digits ds :
  ds ≠ [] → forallb Py.is_digit ds = true →
  Py.format_0d (length ds) (Py.int_of_digits ds) = string_of_list_ascii ds.
Proof.
  intros Hne Hds. pose proof (int_of_digits_bounds ds Hds) as [H0 Hup].
  unfold Py.format_0d. rewrite (proj2 (Z.ltb_ge _ _) H0). simpl app. simpl length.
  f_equal. rewrite Nat.sub_0_r.
  destruct (leading_zeros ds) as (k & t & -> & Ht).
  rewrite int_of_digits_zeros. rewrite forallb_app, andb_true_iff in Hds.
  destruct Hds as [_ Hdt]. rewrite length_app, repeat_length.
  destruct t as [|c t].
  - change (Py.digits_of (Z.abs_N (Py.int_of_digits []))) with ["0"%char].
    simpl length. destruct k as [|k]; [by destruct Hne|].
    rewrite app_nil_r. replace (S k + 0 - 1)%nat with k by lia.
    symmetry. apply repeat_cons.
  - rewrite Zabs2N.abs_N_nonneg by (pose proof (int_of_digits_pos c t Hdt Ht); lia).
    rewrite (digits_of_fuel _ (length t)).
    + rewrite (digits_fuel_canonical c t [] Hdt Ht). rewrite app_nil_r.
      simpl length. by replace (k + S (length t) - S (length t))%nat with k by lia.
    + pose proof (int_of_digits_bounds (c :: t) Hdt) as [Hlo Hhi]. simpl length in Hhi.
      apply N2Z.inj_lt. rewrite Z2N.id by done. rewrite N2Z.inj_pow.
      change (Z.of_N 10) with 10. by rewrite nat_N_Z.
Qed.

Lemma digits_us_digits ds :
  forallb Py.is_digit ds = true → Py.digits_us true ds = Some ds.
Proof.
  induction ds as [|c ds IH]; [done|]. simpl. intros [Hc Hds]%andb_true_iff.
  rewrite Hc. by rewrite (IH Hds).
Qed.

Lemma lstrip_digits ds :
  match ds with c :: _ => Py.is_digit c = true | [] => True end → Py.lstrip ds = ds.
Proof.
  destruct ds as [|c ds]; [done|]. intros Hc. simpl.
  destruct (is_digit_spec c Hc) as (_ & _ & _ & -> & _). done.
Qed.

(** [int] reads a run of digits as the number it denotes. *)
Lemma int_of_digit_string ds :
  ds ≠ [] → forallb Py.is_digit ds = true →
  Py.int (string_of_list_ascii ds) = Ok (Py.int_of_digits ds).
Proof.
  intros Hne Hds. unfold Py.int, Py.chars, Py.strip.
  rewrite list_ascii_of_string_of_list_ascii.
  rewrite (lstrip_digits ds).
  2:{ destruct ds as [|c ds]; [done|]. by apply andb_true_iff in Hds as [? _]. }
  rewrite (lstrip_digits (rev ds)).
  2:{ destruct (rev ds) as [|c r] eqn:E; [done|].
      assert (In c ds) as Hin by (apply in_rev; rewrite E; by left).
      rewrite forallb_forall in Hds. by apply Hds. }
  rewrite rev_involutive.
  destruct ds as [|c ds]; [done|].
  assert (Py.is_digit c = true) as Hc by (by apply andb_true_iff in Hds as [? _]).
  assert (match c :: ds with
          | "+"%char :: r => (1, r)
          | "-"%char :: r => (-1, r)
          | _ => (1, c :: ds)
          end = (1, c :: ds)) as ->.
  { clear -Hc. destruct c as [[] [] [] [] [] [] [] []]; try discriminate Hc; reflexivity. }
  simpl. rewrite Hc. apply andb_true_iff in Hds as [_ Hds].
  rewrite (digits_us_digits ds Hds). simpl. f_equal. lia.
Qed.

End Digits.

(** ** CPT range expansion: well-formed ranges *)

Section WellFormed.
Implicit Types (s : string) (cs : list ascii).

Lemma chars_substring s : ∀ n m,
  Py.chars (substring n m s) = take m (drop n (Py.chars s)).
Proof.
  unfold Py.chars. induction s as [|c s IH]; intros n m.
  - by destruct n, m.
  - destruct n as [|n]; [destruct m as [|m]|]; simpl; [done| |apply IH].
    f_equal. apply (IH 0%nat m).
Qed.

Lemma length_chars s : String.length s = length (Py.chars s).
Proof. unfold Py.chars. induction s as [|c s IH]; simpl; [done|by rewrite IH]. Qed.

Lemma string_of_list_ascii_app cs1 cs2 :
  string_of_list_ascii (cs1 ++ cs2)
  = (string_of_list_ascii cs1 +:+ string_of_list_ascii cs2)%string.
Proof. induction cs1 as [|c cs1 IH]; simpl; [done|by rewrite IH]. Qed.

Lemma string_of_chars s : string_of_list_ascii (Py.chars s) = s.
Proof. apply string_of_list_ascii_of_string. Qed.

(** The shape of an end that the grammar accepts. *)
Lemma parse_endpoint_Some s e :
  RangeGrammar.parse_endpoint s = Some e →
  Py.chars s
  = option_list (RangeGrammar.prefix e) ++ RangeGrammar.body e
    ++ option_list (RangeGrammar.suffix e)
  ∧ RangeGrammar.body e ≠ []
  ∧ forallb Py.is_digit (RangeGrammar.body e) = true
  ∧ (∀ c, RangeGrammar.prefix e = Some c → Py.is_upper c = true)
  ∧ (∀ c, RangeGrammar.suffix e = Some c → Py.is_upper c = true).
Proof.
  unfold RangeGrammar.parse_endpoint.
  set (pc := match Py.chars s with
             | c :: r => if Py.is_upper c then (Some c, r) else (None, Py.chars s)
             | [] => (None, Py.chars s)
             end).
  assert (Py.chars s = option_list pc.1 ++ pc.2
          ∧ ∀ c, pc.1 = Some c → Py.is_upper c = true) as [Hcs Hp].
  { unfold pc. destruct (Py.chars s) as [|c r]; [done|].
    destruct (Py.is_upper c) eqn:E; simpl; [|done]. split; [done|]. by intros ? [= <-]. }
  destruct pc as [p cs1]. simpl in Hcs, Hp.
  set (qc := match rev cs1 with
             | c :: r => if Py.is_upper c then (Some c, rev r) else (None, cs1)
             | [] => (None, cs1)
             end).
  assert (cs1 = qc.2 ++ option_list qc.1
          ∧ ∀ c, qc.1 = Some c → Py.is_upper c = true) as [Hcs1 Hq].
  { unfold qc. destruct (rev cs1) as [|c r] eqn:Hrev; [by rewrite app_nil_r|].
    destruct (Py.is_upper c) eqn:E; simpl; [|by rewrite app_nil_r].
    split; [|by intros ? [= <-]].
    rewrite <- (rev_involutive cs1), Hrev. done. }
  destruct qc as [q cs2]. simpl in Hcs1, Hq.
  destruct cs2 as [|c2 cs2]; [done|].
  destruct (forallb Py.is_digit (c2 :: cs2)) eqn:Hd; [|done].
  intros [= <-]. simpl. by rewrite Hcs, Hcs1.
Qed.

(** Where the source finds the numeric body of such an end, and what its
    first and last characters are. *)
Lemma endpoint_bounds s (p q : option ascii) (body : list ascii) :
  Py.chars s = option_list p ++ body ++ option_list q →
  body ≠ [] → forallb Py.is_digit body = true →
  (∀ c, p = Some c → Py.is_upper c = true) →
  (∀ c, q = Some c → Py.is_upper c = true) →
  numeric_body_bounds s
  = (length (option_list p), (length (option_list p) + length body)%nat)
  ∧ (if Py.search_leading_upper s then Py.first s else EmptyString)
    = string_of_list_ascii (option_list p)
  ∧ (if Py.search_trailing_upper s then Py.last s else EmptyString)
    = string_of_list_ascii (option_list q).
Proof.
  intros Hcs Hne Hd Hp Hq.
  assert (Py.len s = (length (option_list p) + length body + length (option_list q))%nat)
    as Hlen.
  { unfold Py.len. rewrite length_chars, Hcs, !length_app. lia. }
  assert (∃ b0 body', body = b0 :: body' ∧ Py.is_digit b0 = true) as (b0 & body' & Hb0 & Hd0).
  { destruct body as [|b0 body']; [done|]. exists b0, body'. split; [done|].
    by apply andb_true_iff in Hd as [? _]. }
  assert (∃ b1 body'', body = body'' ++ [b1] ∧ Py.is_digit b1 = true)
    as (b1 & body'' & Hb1 & Hd1).
  { destruct (rev body) as [|b1 r] eqn:Hrev.
    - apply (f_equal (@rev ascii)) in Hrev. rewrite rev_involutive in Hrev. done.
    - exists b1, (rev r). split.
      + by rewrite <- (rev_involutive body), Hrev.
      + rewrite forallb_forall in Hd. apply Hd. apply in_rev. rewrite Hrev. by left. }
  assert (Py.search_leading_upper s = bool_decide (is_Some p)) as Hlead.
  { unfold Py.search_leading_upper. rewrite Hcs. destruct p as [c|]; simpl.
    - by rewrite (Hp c eq_refl).
    - rewrite Hb0. simpl. by destruct (is_digit_spec b0 Hd0) as (_ & _ & -> & _). }
  assert (Py.search_trailing_upper s = bool_decide (is_Some q)) as Htrail.
  { unfold Py.search_trailing_upper. rewrite Hcs, !rev_app_distr.
    destruct q as [c|]; simpl.
    - by rewrite (Hq c eq_refl).
    - rewrite Hb1, rev_app_distr. simpl.
      destruct (is_digit_spec b1 Hd1) as (_ & _ & -> & _ & _). simpl.
      assert (Ascii.eqb b1 "010" = false) as ->; [|done].
      clear -Hd1. destruct b1 as [[] [] [] [] [] [] [] []]; try discriminate Hd1; reflexivity. }
  unfold numeric_body_bounds. rewrite Hlead, Htrail, Hlen. repeat split.
  - destruct p, q; simpl; f_equal; lia.
  - destruct p as [c|]; simpl; [|done].
    rewrite <- (string_of_chars (Py.first s)). unfold Py.first.
    by rewrite chars_substring, Hcs.
  - destruct q as [c|]; simpl; [|done].
    rewrite <- (string_of_chars (Py.last s)). unfold Py.last.
    rewrite chars_substring, Hcs, Hlen. simpl.
    replace (length (option_list p) + length body + 1 - 1)%nat
      with (length (option_list p ++ body)) by (rewrite length_app; lia).
    by rewrite app_assoc, drop_app_length.
Qed.

Lemma slice_body s (p q : list ascii) (body : list ascii) :
  Py.chars s = p ++ body ++ q →
  Py.slice s (length p) (length p + length body)
  = string_of_list_ascii body.
Proof.
  intros Hcs. rewrite <- (string_of_chars (Py.slice _ _ _)). unfold Py.slice.
  rewrite chars_substring, Hcs, drop_app_length.
  replace (length p + length body - length p)%nat with (length body) by lia.
  by rewrite take_app_length.
Qed.

Lemma expand_cpt_row_eq d row code_from code_to a b :
  Py.split "-" (cpt_code_range row) = [code_from; code_to] →
  Py.int (Py.slice code_from (fst (numeric_body_bounds code_from))
            (snd (numeric_body_bounds code_from))) = Ok a →
  Py.int (Py.slice code_to (fst (numeric_body_bounds code_from))
            (snd (numeric_body_bounds code_from))) = Ok b →
  expand_cpt_row d row
  = Ok (foldl (λ d n, <[ cpt_key code_from n := ccs_numerical_label row ]> d) d
          (Py.range a (b + 1))).
Proof.
  intros Hsplit. unfold expand_cpt_row, cpt_key, numeric_body_bounds. rewrite Hsplit.
  destruct (Py.search_leading_upper code_from), (Py.search_trailing_upper code_from);
    cbn [fst snd]; by intros -> ->.
Qed.

End WellFormed.

(** X19. A range cell of the documented form -- each end an optional
    capital letter, digits, an optional capital letter, with the same
    letters and the same number of digits at both ends -- is always
    expanded: both numbers are read without an error, the keys written for
    them are the two ends as they are written, and when the first number is
    not above the second both ends map to the row's label afterwards. *)
Theorem well_formed_range_expands (d : gmap string Z) (row : cpt_ccs_row) :
  RangeGrammar.well_formed (cpt_code_range row) = true →
  ∃ code_from code_to a b d',
    Py.split "-" (cpt_code_range row) = [code_from; code_to]
    ∧ Py.int (Py.slice code_from (fst (numeric_body_bounds code_from))
                (snd (numeric_body_bounds code_from))) = Ok a
    ∧ Py.int (Py.slice code_to (fst (numeric_body_bounds code_from))
                (snd (numeric_body_bounds code_from))) = Ok b
    ∧ expand_cpt_row d row = Ok d'
    ∧ cpt_key code_from a = code_from
    ∧ cpt_key code_from b = code_to
    ∧ (a ≤ b →
       d' !! code_from = Some (ccs_numerical_label row)
       ∧ d' !! code_to = Some (ccs_numerical_label row)).
Proof.
  unfold RangeGrammar.well_formed.
  destruct (Py.split "-" (cpt_code_range row)) as [|code_from [|code_to [|]]] eqn:Hsplit;
    try done.
  destruct (RangeGrammar.parse_endpoint code_from) as [ea|] eqn:Ha; [|done].
  destruct (RangeGrammar.parse_endpoint code_to) as [eb|] eqn:Hb; [|done].
  rewrite !andb_true_iff, !bool_decide_eq_true. intros [[Hp Hq] Hlen].
  apply parse_endpoint_Some in Ha as (Hca & Hnea & Hda & Hpa & Hqa).
  apply parse_endpoint_Some in Hb as (Hcb & Hneb & Hdb & _ & _).
  rewrite <- Hp, <- Hq in Hcb.
  destruct (endpoint_bounds code_from _ _ _ Hca Hnea Hda Hpa Hqa) as (Hbounds & Hfirst & Hlast).
  assert (Py.int (Py.slice code_from (fst (numeric_body_bounds code_from))
                    (snd (numeric_body_bounds code_from)))
          = Ok (Py.int_of_digits (RangeGrammar.body ea))) as Hinta.
  { rewrite Hbounds. cbn [fst snd]. rewrite (slice_body _ _ _ _ Hca).
    by apply int_of_digit_string. }
  assert (Py.int (Py.slice code_to (fst (numeric_body_bounds code_from))
                    (snd (numeric_body_bounds code_from)))
          = Ok (Py.int_of_digits (RangeGrammar.body eb))) as Hintb.
  { rewrite Hbounds. cbn [fst snd]. rewrite Hlen. rewrite (slice_body _ _ _ _ Hcb).
    by apply int_of_digit_string. }
  assert (∀ body, length body = length (RangeGrammar.body ea) → body ≠ [] →
            forallb Py.is_digit body = true →
            cpt_key code_from (Py.int_of_digits body)
            = string_of_list_ascii
                (option_list (RangeGrammar.prefix ea) ++ body
                 ++ option_list (RangeGrammar.suffix ea))) as Hkey.
  { intros body Hl Hne Hd. unfold cpt_key. rewrite Hfirst, Hlast, Hbounds. cbn [fst snd].
    replace (length (option_list (RangeGrammar.prefix ea))
             + length (RangeGrammar.body ea)
             - length (option_list (RangeGrammar.prefix ea)))%nat
      with (length body) by lia.
    rewrite format_0d_int_of_digits by done.
    by rewrite !string_of_list_ascii_app. }
  exists code_from, code_to, (Py.int_of_digits (RangeGrammar.body ea)),
    (Py.int_of_digits (RangeGrammar.body eb)).
  eexists. split; [done|]. split; [done|]. split; [done|].
  split; [by apply (expand_cpt_row_eq d row code_from code_to)|].
  assert (cpt_key code_from (Py.int_of_digits (RangeGrammar.body ea)) = code_from) as Hka.
  { rewrite Hkey by done. by rewrite <- Hca, string_of_chars. }
  assert (cpt_key code_from (Py.int_of_digits (RangeGrammar.body eb)) = code_to) as Hkb.
  { rewrite Hkey by done. by rewrite <- Hcb, string_of_chars. }
  split; [done|]. split; [done|]. intros Hle.
  rewrite !foldl_insert_lookup.
  split; (rewrite decide_True; [done|]); apply list_elem_of_fmap.
  - exists (Py.int_of_digits (RangeGrammar.body ea)). split; [done|].
    apply elem_of_range. lia.
  - exists (Py.int_of_digits (RangeGrammar.body eb)). split; [done|].
    apply elem_of_range. lia.
Qed.

Lemma well_formed_range_expands_witness :
  ∃ code_from code_to a b d',
    Py.split "-" "0012T-0014T" = [code_from; code_to]
    ∧ Py.int (Py.slice code_from (fst (numeric_body_bounds code_from))
                (snd (numeric_body_bounds code_from))) = Ok a
    ∧ Py.int (Py.slice code_to (fst (numeric_body_bounds code_from))
                (snd (numeric_body_bounds code_from))) = Ok b
    ∧ expand_cpt_row ∅ {| cpt_code_range := "0012T-0014T"; ccs_numerical_label := 7 |}
      = Ok d'
    ∧ cpt_key code_from a = code_from
    ∧ cpt_key code_from b = code_to
    ∧ (a ≤ b → d' !! code_from = Some 7 ∧ d' !! code_to = Some 7).
Proof.
  apply (well_formed_range_expands ∅
           {| cpt_code_range := "0012T-0014T"; ccs_numerical_label := 7 |}).
  reflexivity.
Defined.

(** ** The table as a whole *)

Section Table.

Lemma expand_cpt_row_covers d row d' (k : string) :
  expand_cpt_row d row = Ok d' →
  (covers row k ∧ d' !! k = Some (ccs_numerical_label row))
  ∨ (¬ covers row k ∧ d' !! k = d !! k).
Proof.
  intros (code_from & code_to & a & b & Hsplit & Ha & Hb & ->)%expand_cpt_row_Ok.
  rewrite foldl_insert_lookup. case_decide as Hin.
  - left. split; [|done].
    apply list_elem_of_fmap in Hin as (n & -> & Hn%elem_of_range).
    exists code_from, code_to, a, b, n. repeat split; try done; lia.
  - right. split; [|done].
    intros (cf & ct & a' & b' & n & Hsplit' & Ha' & Hb' & Hn & ->).
    rewrite Hsplit in Hsplit'. injection Hsplit' as <- <-.
    rewrite Ha in Ha'. rewrite Hb in Hb'. injection Ha' as <-. injection Hb' as <-.
    apply Hin, list_elem_of_fmap. exists n. split; [done|]. apply elem_of_range. lia.
Qed.

Lemma expand_cpt_rows_snoc d rows row :
  expand_cpt_rows d (rows ++ [row])
  = expand_cpt_rows d rows ≫= λ d1, expand_cpt_row d1 row.
Proof.
  revert d. induction rows as [|r rows IH]; intros d; simpl.
  - by destruct (expand_cpt_row d row).
  - destruct (expand_cpt_row d r) as [d1|]; simpl; [apply IH|done].
Qed.

(** The code maps to the label of the last row that contains it, or to what
    the starting dict had when no row contains it. *)
Lemma expand_cpt_rows_lookup rows : ∀ d d' (k : string) (v : Z),
  expand_cpt_rows d rows = Ok d' →
  d' !! k = Some v
  ↔ (∃ rows1 row rows2,
       rows = rows1 ++ row :: rows2 ∧ covers row k ∧ v = ccs_numerical_label row
       ∧ ∀ r, r ∈ rows2 → ¬ covers r k)
    ∨ (d !! k = Some v ∧ ∀ r, r ∈ rows → ¬ covers r k).
Proof.
  induction rows as [|row rows IH] using rev_ind; intros d d' k v.
  { simpl. intros [= <-]. split.
    - intros Hk. right. split; [done|]. intros r Hr. inversion Hr.
    - intros [(rows1 & row & rows2 & Heq & _)|[Hk _]]; [|done].
      by destruct rows1. }
  rewrite expand_cpt_rows_snoc.
  destruct (expand_cpt_rows d rows) as [d1|] eqn:Hrows; [|done]. simpl.
  intros Hrow. specialize (IH d d1 k v Hrows).
  destruct (expand_cpt_row_covers d1 row d' k Hrow) as [[Hc Hk]|[Hnc Hk]];
    rewrite Hk.
  - split.
    + intros [= <-]. left. exists rows, row, []. repeat split; try done.
      intros r Hr. inversion Hr.
    + intros [(rows1 & r & rows2 & Heq & Hcr & -> & Hlast)|[_ Hnone]].
      * destruct rows2 as [|r2 rows2 _] using rev_ind.
        -- apply app_inj_tail in Heq as [_ <-]. done.
        -- rewrite app_comm_cons, app_assoc in Heq.
           apply app_inj_tail in Heq as [_ <-].
           destruct (Hlast row); [|done]. apply elem_of_app. right. by left.
      * destruct (Hnone row); [|done]. apply elem_of_app. right. by left.
  - rewrite IH. split.
    + intros [(rows1 & r & rows2 & -> & Hcr & -> & Hlast)|[Hd Hnone]].
      * left. exists rows1, r, (rows2 ++ [row]). rewrite <- app_assoc.
        repeat split; try done.
        intros r' [?| ->%list_elem_of_singleton]%elem_of_app; [by apply Hlast|done].
      * right. split; [done|].
        intros r' [?| ->%list_elem_of_singleton]%elem_of_app; [by apply Hnone|done].
    + intros [(rows1 & r & rows2 & Heq & Hcr & -> & Hlast)|[Hd Hnone]].
      * destruct rows2 as [|r2 rows2 _] using rev_ind.
        -- apply app_inj_tail in Heq as [_ <-]. done.
        -- rewrite app_comm_cons, app_assoc in Heq.
           apply app_inj_tail in Heq as [-> <-].
           left. exists rows1, r, rows2. repeat split; try done.
           intros r' Hr'. apply Hlast. apply elem_of_app. by left.
      * right. split; [done|]. intros r' Hr'. apply Hnone. apply elem_of_app. by left.
Qed.

End Table.

(** X20. The built CPT table maps a code to the label of the last row whose
    range contains the code, and has no entry for a code that no row
    contains: where ranges overlap, the later row wins. *)
Theorem build_cpt_to_ccs_lookup (df_cpt_ccs_mapping : list cpt_ccs_row)
    (cpt_to_ccs : gmap string Z) (k : string) (v : Z) :
  build_cpt_to_ccs df_cpt_ccs_mapping = Ok cpt_to_ccs →
  cpt_to_ccs !! k = Some v
  ↔ ∃ rows1 row rows2,
      df_cpt_ccs_mapping = rows1 ++ row :: rows2
      ∧ covers row k
      ∧ v = ccs_numerical_label row
      ∧ ∀ r, r ∈ rows2 → ¬ covers r k.
Proof.
  intros Hbuild. unfold build_cpt_to_ccs in Hbuild.
  rewrite (expand_cpt_rows_lookup _ _ _ k v Hbuild). split; [|by left].
  intros [?|[Hempty _]]; [done|]. by rewrite lookup_empty in Hempty.
Qed.

Lemma build_cpt_to_ccs_lookup_witness :
  (<[ "33017"%string := 2 ]>
     (<[ "33019"%string := 1 ]>
        (<[ "33018"%string := 1 ]>
           (<[ "33017"%string := 1 ]> (<[ "33016"%string := 1 ]> (∅ : gmap string Z))))))
    !! "33017"%string = Some 2
  ↔ ∃ rows1 row rows2,
      overlapping_rows = rows1 ++ row :: rows2
      ∧ covers row "33017"
      ∧ 2 = ccs_numerical_label row
      ∧ ∀ r, r ∈ rows2 → ¬ covers r "33017".
Proof.
  apply (build_cpt_to_ccs_lookup overlapping_rows). vm_compute. reflexivity.
Defined.
